(** * anchorbot: the Room.timeline command handler

    A shallow embedding of the message handler of anchorbot, the Matrix bot
    that lets curators drive what the anchor page shows.  The revisions of
    the handler are embedded, each from its own source text:

    - [Index]: [src/index.ts], the revision with the [!streamer] lookup and
      the [live] view kind;
    - [Part001]: the earlier revision (three rooms, no [!streamer]), which
      looks the sender up with [room.getMember] and compares its
      [powerLevel] with 50.

    - [SingleRoom] and [Watch]: the two older single-room listeners kept
      below the first part of [src/index.ts] ([!view] without rooms, and
      [!watch]).

    [package.json] is not among the sources: its three fields are the
    record [Package].

    Conventions.  A JavaScript string is a Rocq [string] holding its UTF-8
    bytes: [split(' ')], [join(' ')], [===] and template concatenation act
    on it bytewise exactly as they act on the UTF-16 original.  The calls on
    the Matrix client are recorded, in program order, as a trace of
    [Effect]s; the answer of the streamer directory is an input of the
    handler. *)

From stdpp Require Import base option list strings gmap.
From Stdlib Require Import ZArith Ascii String.

Open Scope string_scope.
Open Scope list_scope.

(** ** JavaScript library functions used by the handler *)

Module Js.

(** [s.split(' ')]: one more piece than there are spaces; nothing is
    collapsed, so two spaces in a row give an empty piece. *)
Fixpoint split_space (s : string) : list string :=
  match s with
  | EmptyString => [EmptyString]
  | String c s' =>
      if Ascii.eqb c " "%char then EmptyString :: split_space s'
      else match split_space s' with
           | [] => [String c EmptyString]
           | p :: ps => String c p :: ps
           end
  end.

(** [parts.join(' ')]. *)
Fixpoint join_space (parts : list string) : string :=
  match parts with
  | [] => EmptyString
  | [p] => p
  | p :: ps => p +:+ " " +:+ join_space ps
  end.

(** [parts.shift()]: the first element ([undefined] on an empty array)
    and the array it leaves behind. *)
Definition shift (parts : list string) : option string * list string :=
  match parts with
  | [] => (None, [])
  | p :: ps => (Some p, ps)
  end.

(** Truthiness of a value that is a string or [undefined]. *)
Definition truthy (v : option string) : bool :=
  match v with
  | None => false
  | Some s => negb (String.eqb s "")
  end.

(** [v === lit] for [v] a string or [undefined]. *)
Definition strict_eq (v : option string) (lit : string) : bool :=
  match v with
  | None => false
  | Some s => String.eqb s lit
  end.

Definition is_upper (c : ascii) : bool :=
  let n := nat_of_ascii c in (65 <=? n)%nat && (n <=? 90)%nat.

Definition is_lower (c : ascii) : bool :=
  let n := nat_of_ascii c in (97 <=? n)%nat && (n <=? 122)%nat.

Definition lower_ascii (c : ascii) : ascii :=
  if is_upper c then ascii_of_nat (nat_of_ascii c + 32) else c.

Definition byte_is (c : ascii) (n : nat) : bool :=
  (nat_of_ascii c =? n)%nat.

(** [s.toLowerCase()] on the UTF-8 bytes.  The ASCII capitals go to their
    small letters.  Outside ASCII the Unicode lower-case mapping reaches
    an ASCII letter from two characters only: U+0130 (bytes C4 B0), which
    becomes [i] followed by U+0307 (bytes CC 87), and U+212A, the Kelvin
    sign (bytes E2 84 AA), which becomes [k].  Every other non-ASCII
    character is mapped to a non-ASCII character; its bytes are left as
    they are, which is all [matchKey] below can observe. *)
Fixpoint toLowerCase (s : string) : string :=
  match s with
  | EmptyString => EmptyString
  | String c s1 =>
      let plain := String (lower_ascii c) (toLowerCase s1) in
      match s1 with
      | String c2 s2 =>
          if byte_is c 196 && byte_is c2 176 then
            String "i" (String (ascii_of_nat 204)
              (String (ascii_of_nat 135) (toLowerCase s2)))
          else
            match s2 with
            | String c3 s3 =>
                if byte_is c 226 && byte_is c2 132 && byte_is c3 170
                then String "k" (toLowerCase s3)
                else plain
            | EmptyString => plain
            end
      | EmptyString => plain
      end
  end.

(** [s.replace(/[^a-z]/g, '')]: every character outside [a-z] is
    deleted. *)
Fixpoint strip_non_a_z (s : string) : string :=
  match s with
  | EmptyString => EmptyString
  | String c s' =>
      if is_lower c then String c (strip_non_a_z s') else strip_non_a_z s'
  end.

End Js.

(** ** The Matrix client, seen from the handler *)

Module Client.

(** What a handler may raise. *)
Inductive JsError : Type :=
| TypeError.

(** An entry of the streamer directory, [{ slug: string; name: string }]. *)
Record Streamer : Type := mkStreamer {
  slug : string;
  name : string
}.

(** The content given to [client.sendMessage] by the [!streamer] branch. *)
Record MessageContent : Type := mkMessageContent {
  msgtype : string;
  body : string;
  format : string;
  net_woke_streamer : Streamer
}.

(** The content given to [client.sendStateEvent]: a view, or the literal
    [{ kind: 'offline' }], which carries the kind and nothing else. *)
Inductive StateContent (V : Type) : Type :=
| ViewContent (view : V)
| OfflineContent.
Arguments ViewContent {V} view.
Arguments OfflineContent {V}.

(** One observable action of the handler.  The first four are the calls
    on the client, with their arguments in source order; [Fetch] is the
    HTTP request and [ConsoleWarn] the warning of the [catch] block. *)
Inductive Effect (V : Type) : Type :=
| SendNotice (roomId text txnId : string)
| SendStateEvent (roomId eventType : string) (content : StateContent V)
                 (stateKey : string)
| SetRoomTopic (roomId topic : string)
| SendMessage (roomId : string) (content : MessageContent) (txnId : string)
| Fetch (url : string)
| ConsoleWarn (message : string).
Arguments SendNotice {V} roomId text txnId.
Arguments SendStateEvent {V} roomId eventType content stateKey.
Arguments SetRoomTopic {V} roomId topic.
Arguments SendMessage {V} roomId content txnId.
Arguments Fetch {V} url.
Arguments ConsoleWarn {V} message.

(** How a piece of the handler ends: it falls through with a value, it
    executes [return], or it throws. *)
Inductive Completion (A : Type) : Type :=
| Normal (a : A)
| Return
| Throw (e : JsError).
Arguments Normal {A} a.
Arguments Return {A}.
Arguments Throw {A} e.

(** A computation of the handler: the effects so far and the completion. *)
Definition M (V A : Type) : Type := list (Effect V) * Completion A.

Definition bindM {V A B} (f : A → M V B) (m : M V A) : M V B :=
  match m with
  | (t, Normal a) => let (t', c) := f a in (t ++ t', c)
  | (t, Return) => (t, Return)
  | (t, Throw e) => (t, Throw e)
  end.

#[export] Instance M_ret {V} : MRet (M V) := λ A a, ([], Normal a).
#[export] Instance M_bind {V} : MBind (M V) := λ A B f m, bindM f m.

Definition emit {V} (e : Effect V) : M V unit := ([e], Normal tt).
Definition return_ {V} : M V unit := ([], Return).
Definition throw {V A} (e : JsError) : M V A := ([], Throw e).

(** [if (c) { m }] *)
Definition when {V} (c : bool) (m : M V unit) : M V unit :=
  if c then m else mret tt.

(** [for (const x of xs) { f(x) }] *)
Fixpoint forOf {V A} (xs : list A) (f : A → M V unit) : M V unit :=
  match xs with
  | [] => mret tt
  | x :: xs' => f x ;; forOf xs' f
  end.

(** The trace of a finished handler, and whether it threw. *)
Definition trace {V A} (m : M V A) : list (Effect V) := fst m.

Definition thrown {V A} (m : M V A) : option JsError :=
  match snd m with
  | Throw e => Some e
  | _ => None
  end.

(** What the listener leaves behind once it is over: its trace, and the
    error if it threw ([return] and falling off the end are the same). *)
Definition run {V A} (m : M V A) : list (Effect V) * option JsError :=
  (trace m, thrown m).

(** The event and room objects the SDK hands to the listener.  The body
    is taken at its declared type, [string], or missing; a body of
    another type (on which [body.split] would throw) is outside the
    model. *)
Record Event : Type := mkEvent {
  getType : string;
  getContent_body : option string;   (* [event.getContent().body] *)
  getRoomId : string;
  getSender : string
}.

Record RoomMember : Type := mkRoomMember {
  powerLevel : Z
}.

Record Room : Type := mkRoom {
  roomId : string;
  getMember : string → option RoomMember   (* [null] is [None] *)
}.

(** [config.rooms] *)
Record Rooms : Type := mkRooms {
  anchor : string;
  announcements : string;
  curators : string
}.

(** The fields of [package.json] the [!bot] reply prints. *)
Record Package : Type := mkPackage {
  pkg_name : string;
  pkg_version : string;
  pkg_homepage : string
}.

Definition AnchorViewEventType : string := "net.woke.anchor.view".

(** The notices that reached [room], in order. *)
Definition notices_to {V} (room : string) (t : list (Effect V)) : list string :=
  omap (λ e, match e with
             | SendNotice r text _ =>
                 if String.eqb r room then Some text else None
             | _ => None
             end) t.

(** Whether an effect is a notice. *)
Definition is_notice {V} (e : Effect V) : bool :=
  match e with SendNotice _ _ _ => true | _ => false end.

End Client.

(** ** [src/index.ts] *)

Module Index.
Import Client.

Inductive Kind : Type := hls | embed | offline.

(** [type View]: the url-bearing kinds, or [live]. *)
Inductive View : Type :=
| UrlView (kind : Kind) (title : option string) (url : string) (fill : bool)
| LiveView (title : option string) (hls_url dash_url : string).

Definition title (v : View) : option string :=
  match v with
  | UrlView _ t _ _ => t
  | LiveView t _ _ => t
  end.

Record Config : Type := mkConfig {
  baseUrl : string;
  accessToken : string;
  userId : string;
  anchorUrl : string;
  apiUrl : string;
  rooms : Rooms;
  alias : gmap string View
}.

(** [const matchKey = (s) => s.toLowerCase().replace(/[^a-z]/g, '')] *)
Definition matchKey (s : string) : string :=
  Js.strip_non_a_z (Js.toLowerCase s).

Section Handler.
Context (cfg : Config) (pkg : Package).
(** The directory the API answers with, taken at its declared type, an
    array of entries; [None] when [fetch] or [resp.json()] throws.  An
    answer that is valid JSON but no array is outside the model. *)
Context (fetch_json : string → option (list Streamer)).

(** Lines 187-194: the alias, or the fallback embed view. *)
Definition resolve (token : string) (second : option string) : View :=
  match alias cfg !! token with
  | Some view => view
  | None => UrlView embed None token (Js.strict_eq second "fill")
  end.

(** Line 197: [view.title || ('url' in view ? `<${view.url}>` : 'unknown')] *)
Definition viewTitle (view : View) : string :=
  if Js.truthy (title view) then default "" (title view)
  else match view with
       | UrlView _ _ url _ => "<" +:+ url +:+ ">"
       | LiveView _ _ _ => "unknown"
       end.

Definition streamerMessage (streamer : Streamer) : MessageContent :=
  {| msgtype := "m.notice";
     body := name streamer +:+ ": " +:+ anchorUrl cfg +:+ "/streamers/"
             +:+ slug streamer;
     format := "net.woke.streamer";
     net_woke_streamer := streamer |}.

(** Lines 145-169; [parts[0]] is a non-empty string here. *)
Definition streamerCommand (parts : list string) : M View unit :=
  let url := apiUrl cfg +:+ "/streamers/index.json" in
  emit (Fetch url) ;;
  match fetch_json url with
  | None => emit (ConsoleWarn "Failed to fetch streamers:") ;; return_
  | Some streamers =>
      let streamer :=
        find (λ s, String.eqb (matchKey (slug s))
                              (matchKey (nth 0 parts "")))
             streamers in
      match streamer with
      | Some streamer =>
          emit (SendMessage (anchor (rooms cfg)) (streamerMessage streamer) "")
      | None => mret tt
      end ;;
      return_
  end.

(** Lines 172-214. *)
Definition curatorCommands (event : Event) (room : Room)
    (cmd : option string) (parts : list string) : M View unit :=
  when (negb (String.eqb (roomId room) (curators (rooms cfg)))) return_ ;;
  if Js.strict_eq cmd "!view" || Js.strict_eq cmd "!v" then
    match parts with
    | [] =>
        emit (SendNotice (getRoomId event)
                         "Please use !end to clear the view." "") ;;
        return_
    | token :: _ =>
        let view := resolve token (parts !! 1%nat) in
        emit (SendStateEvent (anchor (rooms cfg)) AnchorViewEventType
                             (ViewContent view) "") ;;
        forOf [anchor (rooms cfg); curators (rooms cfg)] (λ roomId,
          emit (SendNotice roomId ("Now viewing: " +:+ viewTitle view) ""))
    end
  else if Js.strict_eq cmd "!end" || Js.strict_eq cmd "!e" then
    emit (SendStateEvent (anchor (rooms cfg)) AnchorViewEventType
                         OfflineContent "") ;;
    emit (SendNotice (curators (rooms cfg)) "Broadcast ended." "")
  else if Js.strict_eq cmd "!announce" || Js.strict_eq cmd "!a" then
    let announceText := Js.join_space parts in
    emit (SetRoomTopic (anchor (rooms cfg)) announceText) ;;
    emit (SendNotice (announcements (rooms cfg)) announceText "") ;;
    emit (SendNotice (curators (rooms cfg)) "Announcement sent." "")
  else mret tt.

Definition botBanner : string :=
  "🤖 " +:+ pkg_name pkg +:+ " v" +:+ pkg_version pkg
  +:+ " (" +:+ pkg_homepage pkg +:+ ")".

(** The listener of ['Room.timeline'], lines 124-215. *)
Definition onRoomTimeline (event : Event) (room : Room) : M View unit :=
  when (negb (String.eqb (getType event) "m.room.message")) return_ ;;
  match getContent_body event with
  | None => return_
  | Some body =>
      when (String.eqb body "") return_ ;;
      let '(cmd, parts) := Js.shift (Js.split_space body) in
      if Js.strict_eq cmd "!bot" then
        emit (SendNotice (getRoomId event) botBanner "") ;;
        return_
      else if Js.strict_eq cmd "!streamer" && Js.truthy (parts !! 0%nat) then
        streamerCommand parts
      else
        curatorCommands event room cmd parts
  end.

End Handler.
End Index.

(** ** The earlier revision, with the power-level check *)

Module Part001.
Import Client.

Inductive Kind : Type := hls | embed | offline.

(** [type View] *)
Record View : Type := mkView {
  title : option string;
  kind : Kind;
  url : string;
  fill : bool
}.

Record Config : Type := mkConfig {
  baseUrl : string;
  accessToken : string;
  userId : string;
  rooms : Rooms;
  alias : gmap string View
}.

Section Handler.
Context (cfg : Config) (pkg : Package).

(** Lines 130-137: the alias, or the fallback embed view. *)
Definition resolve (token : string) (second : option string) : View :=
  match alias cfg !! token with
  | Some view => view
  | None => {| title := None; kind := embed; url := token;
               fill := Js.strict_eq second "fill" |}
  end.

(** Line 141: [view.title || view.url] *)
Definition viewTitle (view : View) : string :=
  if Js.truthy (title view) then default "" (title view) else url view.

Definition botBanner : string :=
  "🤖 " +:+ pkg_name pkg +:+ " v" +:+ pkg_version pkg
  +:+ " (" +:+ pkg_homepage pkg +:+ ")".

(** [sender.powerLevel], a [TypeError] when [sender] is [null]. *)
Definition get_powerLevel (sender : option RoomMember) : M View Z :=
  match sender with
  | Some member => mret (powerLevel member)
  | None => throw TypeError
  end.

(** The listener of ['Room.timeline'], lines 88-157. *)
Definition onRoomTimeline (event : Event) (room : Room) : M View unit :=
  when (negb (String.eqb (getType event) "m.room.message")) return_ ;;
  match getContent_body event with
  | None => return_
  | Some body =>
      when (String.eqb body "") return_ ;;
      let '(cmd, parts) := Js.shift (Js.split_space body) in
      if Js.strict_eq cmd "!bot" then
        emit (SendNotice (getRoomId event) botBanner "") ;;
        return_
      else
        (* Curator-only commands *)
        when (negb (String.eqb (roomId room) (curators (rooms cfg))))
             return_ ;;
        let sender := getMember room (getSender event) in
        level ← get_powerLevel sender ;
        when (level <? 50)%Z return_ ;;
        if Js.strict_eq cmd "!view" || Js.strict_eq cmd "!v" then
          match parts with
          | [] =>
              emit (SendNotice (getRoomId event)
                               "Please use !end to clear the view." "") ;;
              return_
          | token :: _ =>
              let view := resolve token (parts !! 1%nat) in
              emit (SendStateEvent (anchor (rooms cfg)) AnchorViewEventType
                                   (ViewContent view) "") ;;
              forOf [anchor (rooms cfg); curators (rooms cfg)] (λ roomId,
                emit (SendNotice roomId
                        ("Now viewing: " +:+ viewTitle view) ""))
          end
        else if Js.strict_eq cmd "!end" || Js.strict_eq cmd "!e" then
          emit (SendStateEvent (anchor (rooms cfg)) AnchorViewEventType
                               OfflineContent "") ;;
          emit (SendNotice (curators (rooms cfg)) "Broadcast ended." "")
        else if Js.strict_eq cmd "!announce" || Js.strict_eq cmd "!a" then
          let announceText := Js.join_space parts in
          emit (SetRoomTopic (anchor (rooms cfg)) announceText) ;;
          emit (SendNotice (announcements (rooms cfg)) announceText "") ;;
          emit (SendNotice (curators (rooms cfg)) "Announcement sent." "")
        else mret tt
  end.

End Handler.
End Part001.

(** ** The single-room revisions kept in [src/index.ts]

    Below its first part [src/index.ts] keeps two older listeners, written
    for one configured room.  They reply with [client.sendTextMessage],
    take the command from [parts[0]] without shifting, and read their
    arguments from [parts[1]] and [parts[2]], which may be [undefined]. *)

Module SingleRoom.
Import Client.

(** [`${v}`] for a string or [undefined]. *)
Definition template (v : option string) : string := default "undefined" v.

(** [alias.get(key)] for a key that is a string or [undefined]; the keys
    of the table are strings. *)
Definition alias_get {A} (alias : gmap string A) (key : option string)
    : option A :=
  match key with
  | Some k => alias !! k
  | None => None
  end.

Definition botBanner (pkg : Package) : string :=
  "🤖 " +:+ pkg_name pkg +:+ " v" +:+ pkg_version pkg
  +:+ " (" +:+ pkg_homepage pkg +:+ ")".

(** *** Lines 340-468: [!view] *)

Inductive Kind : Type := hls | embed.

(** [type View] *)
Record View : Type := mkView {
  title : option string;
  kind : Kind;
  url : string;
  fill : bool
}.

Record Config : Type := mkConfig {
  baseUrl : string;
  accessToken : string;
  userId : string;
  roomId : string;
  alias : gmap string View
}.

(** What [view] holds when it is published: a configured view, or the
    object literal [{ kind: 'embed', url: parts[1], fill: ... }]. *)
Inductive Published : Type :=
| Configured (view : View)
| Fallback (url : option string) (fill : bool).

Inductive Effect : Type :=
| SendTextMessage (roomId text txnId : string)
| SendStateEvent (roomId eventType : string) (content : Published)
                 (stateKey : string).

(** [view.title || view.url] *)
Definition title_or_url (view : Published) : option string :=
  match view with
  | Configured v => if Js.truthy (title v) then title v else Some (url v)
  | Fallback u _ => u
  end.

(** The listener of ['Room.timeline'], lines 420-462: the trace, and the
    error when it throws. *)
Definition onRoomTimeline (cfg : Config) (pkg : Package)
    (event : Event) (room : Room) : list Effect * option JsError :=
  if negb (String.eqb (getType event) "m.room.message") then ([], None)
  else
    match getContent_body event with
    | None => ([], None)
    | Some body =>
        if String.eqb body "" then ([], None)
        else
          let parts := Js.split_space body in
          let cmd := parts !! 0%nat in
          if Js.strict_eq cmd "!bot" then
            ([SendTextMessage (roomId cfg) (botBanner pkg) ""], None)
          else if Js.strict_eq cmd "!view" then
            match getMember room (getSender event) with
            | None => ([], Some TypeError)      (* [sender.powerLevel] *)
            | Some sender =>
                if (powerLevel sender <? 50)%Z then ([], None)
                else
                  let view :=
                    match alias_get (alias cfg) (parts !! 1%nat) with
                    | Some v => Configured v
                    | None =>
                        Fallback (parts !! 1%nat)
                                 (Js.strict_eq (parts !! 2%nat) "fill")
                    end in
                  ([SendStateEvent (Client.roomId room) AnchorViewEventType
                                   view "";
                    SendTextMessage (roomId cfg)
                      ("Switching to view: " +:+ template (title_or_url view))
                      ""],
                   None)
            end
          else ([], None)
    end.

End SingleRoom.

Module Watch.
Import Client.

(** *** Lines 222-339: [!watch] *)

(** [type Stream] *)
Record Stream : Type := mkStream {
  kind : string;
  url : string
}.

Record Config : Type := mkConfig {
  baseUrl : string;
  accessToken : string;
  userId : string;
  roomId : string;
  alias : gmap string Stream
}.

(** What [stream] holds when it is published: a configured stream, or the
    object literal [{ kind: parts[1], url: parts[2] }]. *)
Inductive Published : Type :=
| Configured (stream : Stream)
| Fallback (kind url : option string).

Inductive Effect : Type :=
| SendTextMessage (roomId text txnId : string)
| SendStateEvent (roomId eventType : string) (content : Published)
                 (stateKey : string).

(** [stream.url] *)
Definition stream_url (stream : Published) : option string :=
  match stream with
  | Configured s => Some (url s)
  | Fallback _ u => u
  end.

(** The event as this listener reads it: [event.getType()],
    [event.event?.content?.body], and [event.sender], which is a member
    with a [userId] or [null]. *)
Record Event : Type := mkEvent {
  getType : string;
  content_body : option string;
  sender_userId : option string
}.

(** The listener of ['Room.timeline'], lines 298-333. *)
Definition onRoomTimeline (cfg : Config) (pkg : Package)
    (event : Event) (room : Room) : list Effect * option JsError :=
  if negb (String.eqb (getType event) "m.room.message") then ([], None)
  else
    match content_body event with
    | None => ([], None)
    | Some body =>
        if String.eqb body "" then ([], None)
        else
          let parts := Js.split_space body in
          let cmd := parts !! 0%nat in
          if Js.strict_eq cmd "!bot" then
            ([SendTextMessage (roomId cfg) (SingleRoom.botBanner pkg) ""],
             None)
          else if Js.strict_eq cmd "!watch" then
            match sender_userId event with
            | None => ([], Some TypeError)      (* [event.sender.userId] *)
            | Some user =>
                match getMember room user with
                | None => ([], Some TypeError)  (* [sender.powerLevel] *)
                | Some sender =>
                    if (powerLevel sender <? 50)%Z then ([], None)
                    else
                      let stream :=
                        match SingleRoom.alias_get (alias cfg)
                                (parts !! 1%nat) with
                        | Some s => Configured s
                        | None => Fallback (parts !! 1%nat) (parts !! 2%nat)
                        end in
                      ([SendStateEvent (Client.roomId room) "net.woke.anchor"
                                       stream "stream";
                        SendTextMessage (roomId cfg)
                          ("Switching to stream: "
                           +:+ SingleRoom.template (stream_url stream)) ""],
                       None)
                end
            end
          else ([], None)
    end.

End Watch.

(** * Vocabulary of the statements *)

Import Client.

(** The six command names of the curator-only section. *)
Definition curator_only (cmd : string) : bool :=
  existsb (String.eqb cmd) ["!view"; "!v"; "!end"; "!e"; "!announce"; "!a"].

(** Sample data for the closed instances below. *)
Definition sample_rooms : Rooms :=
  {| anchor := "!anchor:woke.net";
     announcements := "!announcements:woke.net";
     curators := "!curators:woke.net" |}.

Definition sample_pkg : Package :=
  {| pkg_name := "anchorbot"; pkg_version := "1.0.0";
     pkg_homepage := "https://github.com/wokenet/anchorbot" |}.

Definition demo_view : Index.View :=
  Index.UrlView Index.embed None "https://x/demo" false.

Definition sample_cfg : Index.Config :=
  {| Index.baseUrl := "https://matrix.woke.net";
     Index.accessToken := "token";
     Index.userId := "@anchorbot:woke.net";
     Index.anchorUrl := "https://woke.net";
     Index.apiUrl := "https://api.woke.net";
     Index.rooms := sample_rooms;
     Index.alias := {[ "demo" := demo_view ]} |}.

Definition demo_view_001 : Part001.View :=
  {| Part001.title := None; Part001.kind := Part001.embed;
     Part001.url := "https://x/demo"; Part001.fill := false |}.

Definition sample_cfg_001 : Part001.Config :=
  {| Part001.baseUrl := "https://matrix.woke.net";
     Part001.accessToken := "token";
     Part001.userId := "@anchorbot:woke.net";
     Part001.rooms := sample_rooms;
     Part001.alias := {[ "demo" := demo_view_001 ]} |}.

Definition sample_directory : list Streamer :=
  [ {| slug := "x-y"; name := "XY" |}; {| slug := "a-b-c"; name := "ABC" |} ].

Definition sample_fetch (url : string) : option (list Streamer) :=
  if String.eqb url "https://api.woke.net/streamers/index.json"
  then Some sample_directory else None.

(** A message event with the given body, room and sender. *)
Definition message (body room sender : string) : Event :=
  {| getType := "m.room.message"; getContent_body := Some body;
     getRoomId := room; getSender := sender |}.

(** A room in which every member has the given power level. *)
Definition room_with_level (id : string) (level : Z) : Room :=
  {| roomId := id; getMember := λ _, Some {| powerLevel := level |} |}.

(** A room whose member lookup finds nobody. *)
Definition room_without_members (id : string) : Room :=
  {| roomId := id; getMember := λ _, None |}.

(** The normalisation in the words of the specification, for ASCII text:
    lower-case every letter and drop every character that is not a
    letter. *)
Fixpoint spec_normalize (s : string) : string :=
  match s with
  | EmptyString => EmptyString
  | String c s' =>
      if Js.is_upper c || Js.is_lower c
      then String (Js.lower_ascii c) (spec_normalize s')
      else spec_normalize s'
  end.

(** Every byte is below 128. *)
Fixpoint ascii_only (s : string) : bool :=
  match s with
  | EmptyString => true
  | String c s' => (nat_of_ascii c <? 128)%nat && ascii_only s'
  end.

(** ** Vocabulary of the further properties *)

Definition is_state_event {V} (e : Effect V) : bool :=
  match e with SendStateEvent _ _ _ _ => true | _ => false end.

Definition is_topic_change {V} (e : Effect V) : bool :=
  match e with SetRoomTopic _ _ => true | _ => false end.

(** Where an effect may go and what it may carry, given the configured
    rooms and the room the event came from: state events, topic changes
    and streamer messages go to the anchor room only, state events are of
    the view type with the empty state key, and a notice goes to the
    event's room or to one of the three configured rooms. *)
Definition well_addressed {V} (rs : Rooms) (origin : string) (e : Effect V)
    : Prop :=
  match e with
  | SendStateEvent r ty _ key =>
      r = anchor rs ∧ ty = "net.woke.anchor.view" ∧ key = ""
  | SetRoomTopic r _ => r = anchor rs
  | SendMessage r _ _ => r = anchor rs
  | SendNotice r _ _ =>
      r = origin ∨ r = anchor rs ∨ r = announcements rs ∨ r = curators rs
  | Fetch _ | ConsoleWarn _ => True
  end.

(** A configuration with a titled alias and an untitled live alias. *)
Definition titled_view : Index.View :=
  Index.UrlView Index.hls (Some "Main camera") "https://x/cam.m3u8" true.

Definition live_view : Index.View :=
  Index.LiveView None "https://x/live.m3u8" "https://x/live.mpd".

Definition sample_cfg_aliases : Index.Config :=
  {| Index.baseUrl := "https://matrix.woke.net";
     Index.accessToken := "token";
     Index.userId := "@anchorbot:woke.net";
     Index.anchorUrl := "https://woke.net";
     Index.apiUrl := "https://api.woke.net";
     Index.rooms := sample_rooms;
     Index.alias := <[ "cam" := titled_view ]> {[ "live" := live_view ]} |}.

(** A view of the earlier revision read as a view of [src/index.ts], and
    the same for contents and effects. *)
Definition lift_kind (k : Part001.Kind) : Index.Kind :=
  match k with
  | Part001.hls => Index.hls
  | Part001.embed => Index.embed
  | Part001.offline => Index.offline
  end.

Definition lift_view (v : Part001.View) : Index.View :=
  Index.UrlView (lift_kind (Part001.kind v)) (Part001.title v)
                (Part001.url v) (Part001.fill v).

Definition lift_content (c : StateContent Part001.View)
    : StateContent Index.View :=
  match c with
  | ViewContent v => ViewContent (lift_view v)
  | OfflineContent => OfflineContent
  end.

Definition lift_effect (e : Effect Part001.View) : Effect Index.View :=
  match e with
  | SendNotice r text txn => SendNotice r text txn
  | SendStateEvent r ty c key => SendStateEvent r ty (lift_content c) key
  | SetRoomTopic r topic => SetRoomTopic r topic
  | SendMessage r c txn => SendMessage r c txn
  | Fetch url => Fetch url
  | ConsoleWarn m => ConsoleWarn m
  end.

(** Sample data for the single-room listeners. *)
Definition sample_cfg_single : SingleRoom.Config :=
  {| SingleRoom.baseUrl := "https://matrix.woke.net";
     SingleRoom.accessToken := "token";
     SingleRoom.userId := "@anchorbot:woke.net";
     SingleRoom.roomId := "!anchor:woke.net";
     SingleRoom.alias :=
       {[ "demo" := {| SingleRoom.title := None;
                       SingleRoom.kind := SingleRoom.embed;
                       SingleRoom.url := "https://x/demo";
                       SingleRoom.fill := false |} ]} |}.

Definition sample_cfg_watch : Watch.Config :=
  {| Watch.baseUrl := "https://matrix.woke.net";
     Watch.accessToken := "token";
     Watch.userId := "@anchorbot:woke.net";
     Watch.roomId := "!anchor:woke.net";
     Watch.alias :=
       {[ "demo" := {| Watch.kind := "hls";
                       Watch.url := "https://x/demo.m3u8" |} ]} |}.

Definition watch_message (body sender : string) : Watch.Event :=
  {| Watch.getType := "m.room.message"; Watch.content_body := Some body;
     Watch.sender_userId := Some sender |}.

(** The small letter an ASCII letter stands for; nothing for any other
    byte. *)
Definition small_letter_of (c : ascii) : option ascii :=
  let n := nat_of_ascii c in
  if (65 <=? n)%nat && (n <=? 90)%nat then Some (ascii_of_nat (n + 32))
  else if (97 <=? n)%nat && (n <=? 122)%nat then Some c
  else None.

(** The key of a text, read off in one pass, without reference to the
    two steps of [matchKey]: every ASCII letter gives its small letter;
    U+0130 (bytes C4 B0) gives [i] and U+212A (bytes E2 84 AA) gives [k],
    as their lower case does; every other byte, so every digit, blank
    and punctuation mark and every other non-ASCII character, letters
    such as [é] included, gives nothing. *)
Fixpoint a_z_key (s : string) : string :=
  match s with
  | EmptyString => EmptyString
  | String c s1 =>
      let plain :=
        match small_letter_of c with
        | Some l => String l (a_z_key s1)
        | None => a_z_key s1
        end in
      match s1 with
      | String c2 s2 =>
          if (nat_of_ascii c =? 196)%nat && (nat_of_ascii c2 =? 176)%nat
          then String "i" (a_z_key s2)
          else
            match s2 with
            | String c3 s3 =>
                if (nat_of_ascii c =? 226)%nat && (nat_of_ascii c2 =? 132)%nat
                   && (nat_of_ascii c3 =? 170)%nat
                then String "k" (a_z_key s3)
                else plain
            | EmptyString => plain
            end
      | EmptyString => plain
      end
  end.

(** The normalisation in the words of the specification, for text in
    ASCII and the letters U+00C0..U+00FF of Latin-1 (bytes C3 80..BF
    without the signs U+00D7 and U+00F7): lower-case every letter, drop
    every character that is not a letter.  The capitals U+00C0..U+00DE
    have their small letter 32 places on. *)
Definition latin1_letter (c2 : ascii) : bool :=
  let n := nat_of_ascii c2 in
  (128 <=? n)%nat && (n <=? 191)%nat
  && negb (n =? 151)%nat && negb (n =? 183)%nat.

Definition latin1_lower (c2 : ascii) : ascii :=
  let n := nat_of_ascii c2 in
  if (n <=? 158)%nat then ascii_of_nat (n + 32) else c2.

Fixpoint spec_normalize_latin1 (s : string) : string :=
  match s with
  | EmptyString => EmptyString
  | String c s1 =>
      match small_letter_of c with
      | Some l => String l (spec_normalize_latin1 s1)
      | None =>
          match s1 with
          | String c2 s2 =>
              if (nat_of_ascii c =? 195)%nat && latin1_letter c2
              then String c (String (latin1_lower c2)
                                    (spec_normalize_latin1 s2))
              else spec_normalize_latin1 s1
          | EmptyString => EmptyString
          end
      end
  end.

(** A directory with a slug that holds a non-ASCII letter. *)
Definition accented_directory : list Streamer :=
  [ {| slug := "café"; name := "Café" |} ].

Definition accented_fetch (url : string) : option (list Streamer) :=
  if String.eqb url "https://api.woke.net/streamers/index.json"
  then Some accented_directory else None.

(** No byte of the string is a space. *)
Fixpoint no_space (s : string) : bool :=
  match s with
  | EmptyString => true
  | String c s' => negb (Ascii.eqb c " ") && no_space s'
  end.

(** How many bytes of the string are spaces. *)
Fixpoint count_spaces (s : string) : nat :=
  match s with
  | EmptyString => 0
  | String c s' => (if Ascii.eqb c " " then 1 else 0) + count_spaces s'
  end.

(** * Properties *)

(** ** Strings and the command line *)

Lemma curator_only_cases (cmd : string) :
  curator_only cmd = true →
  cmd = "!view" ∨ cmd = "!v" ∨ cmd = "!end" ∨ cmd = "!e"
  ∨ cmd = "!announce" ∨ cmd = "!a".
Proof.
  unfold curator_only. cbn [existsb].
  rewrite !orb_true_iff, !String.eqb_eq. intuition discriminate.
Qed.

Lemma split_space_cons (s : string) :
  ∃ p ps, Js.split_space s = p :: ps.
Proof.
  induction s as [|c s [p [ps IH]]]; simpl; [by eauto|].
  destruct (Ascii.eqb c " "); [by eauto|].
  rewrite IH. eauto.
Qed.

(** A body whose first piece is not empty is not the empty string. *)
Lemma split_space_body_nonempty (body cmd : string) (parts : list string) :
  Js.split_space body = cmd :: parts → cmd ≠ "" → String.eqb body "" = false.
Proof.
  intros Hsplit Hcmd. destruct body as [|c body]; [|reflexivity].
  simpl in Hsplit. congruence.
Qed.

Lemma curator_only_nonempty (cmd : string) : curator_only cmd = true → cmd ≠ "".
Proof. by intros Hin ->. Qed.

Lemma join_space_cons (p q : string) (ps : list string) :
  Js.join_space (p :: q :: ps) = p +:+ " " +:+ Js.join_space (q :: ps).
Proof. reflexivity. Qed.

(** [join(' ')] undoes [split(' ')]. *)
Lemma join_split_space (s : string) : Js.join_space (Js.split_space s) = s.
Proof.
  induction s as [|c s IH]; [reflexivity|].
  cbn [Js.split_space]. destruct (split_space_cons s) as [p [ps Hs]].
  rewrite Hs in IH |- *.
  destruct (Ascii.eqb_spec c " ") as [->|Hc].
  - by rewrite join_space_cons, IH.
  - destruct ps as [|q ps].
    + simpl in *. by rewrite IH.
    + rewrite join_space_cons in IH |- *. by rewrite <- IH.
Qed.

(** The first piece of a split holds no space. *)
Lemma split_space_app (cmd rest : string) :
  (∀ c, c ∈ list_ascii_of_string cmd → c ≠ " "%char) →
  Js.split_space (cmd +:+ " " +:+ rest) = cmd :: Js.split_space rest.
Proof.
  induction cmd as [|c cmd IH]; intros Hns; [reflexivity|].
  change (String c cmd +:+ " " +:+ rest)
    with (String c (cmd +:+ " " +:+ rest)).
  cbn [Js.split_space]. destruct (Ascii.eqb_spec c " ") as [->|Hc].
  - exfalso. apply (Hns " "%char); [left | reflexivity].
  - rewrite IH; [reflexivity|].
    intros c' Hc'. apply Hns. by right.
Qed.

(** ** The completion monad *)

Lemma bind_ret_l {V A B} (a : A) (f : A → M V B) : mret a ≫= f = f a.
Proof.
  unfold mbind, M_bind, mret, M_ret, bindM. by destruct (f a).
Qed.

Lemma when_false {V} (m : M V unit) (k : M V unit) :
  (when false m ;; k) = k.
Proof. unfold when. apply bind_ret_l. Qed.

(** ** [src/index.ts]: which branch a message takes *)

Section IndexDispatch.
Context (cfg : Index.Config) (pkg : Package).
Context (fetch_json : string → option (list Streamer)).
Context (event : Event) (room : Room).
Context (body cmd : string) (parts : list string).
Hypothesis Htype : getType event = "m.room.message".
Hypothesis Hbody : getContent_body event = Some body.
Hypothesis Hsplit : Js.split_space body = cmd :: parts.
Hypothesis Hcmd : cmd ≠ "".

Lemma index_dispatch :
  Index.onRoomTimeline cfg pkg fetch_json event room =
  if String.eqb cmd "!bot" then
    emit (SendNotice (getRoomId event) (Index.botBanner pkg) "") ;; return_
  else if String.eqb cmd "!streamer" && Js.truthy (parts !! 0%nat) then
    Index.streamerCommand cfg fetch_json parts
  else
    Index.curatorCommands cfg event room (Some cmd) parts.
Proof using Htype Hbody Hsplit Hcmd.
  unfold Index.onRoomTimeline.
  rewrite Htype, Hbody, String.eqb_refl. simpl negb. rewrite when_false.
  rewrite (split_space_body_nonempty _ _ _ Hsplit Hcmd), when_false.
  rewrite Hsplit. reflexivity.
Qed.

(** A curator-only command reaches the curator-only section. *)
Lemma index_dispatch_curator :
  curator_only cmd = true →
  Index.onRoomTimeline cfg pkg fetch_json event room =
  Index.curatorCommands cfg event room (Some cmd) parts.
Proof using Htype Hbody Hsplit Hcmd.
  intros Hin. rewrite index_dispatch.
  destruct (curator_only_cases _ Hin) as [->|[->|[->|[->|[->| ->]]]]];
    reflexivity.
Qed.

End IndexDispatch.

(** Steps past the room guard of the curator-only section, given that the
    message arrived in the curators room. *)
Ltac enter_curators_room Hroom :=
  unfold Index.curatorCommands;
  rewrite Hroom, String.eqb_refl; simpl negb; rewrite when_false.

(** ** The curators-room guard *)

(** C6.  A message whose command is one of [!view], [!v], [!end], [!e],
    [!announce], [!a] and which arrives in a room other than the curators
    room leaves no effect at all (no state event, no notice, no topic),
    whatever the room says about the sender's power level. *)
Theorem curator_command_outside_curators_room
    cfg pkg fetch_json event room body cmd parts :
  getType event = "m.room.message" →
  getContent_body event = Some body →
  Js.split_space body = cmd :: parts →
  curator_only cmd = true →
  roomId room ≠ curators (Index.rooms cfg) →
  run (Index.onRoomTimeline cfg pkg fetch_json event room) = ([], None).
Proof.
  intros Htype Hbody Hsplit Hcmd Hroom.
  rewrite (index_dispatch_curator cfg pkg fetch_json event room body cmd parts)
    by auto using curator_only_nonempty.
  unfold Index.curatorCommands.
  apply String.eqb_neq in Hroom. by rewrite Hroom.
Qed.

Lemma curator_command_outside_curators_room_witness :
  run (Index.onRoomTimeline sample_cfg sample_pkg sample_fetch
         (message "!view demo fill" "!anchor:woke.net" "@admin:woke.net")
         (room_with_level "!anchor:woke.net" 100)) = ([], None).
Proof.
  apply (curator_command_outside_curators_room sample_cfg sample_pkg
           sample_fetch _ _ "!view demo fill" "!view" ["demo"; "fill"]);
    [reflexivity | reflexivity | reflexivity | reflexivity | discriminate].
Defined.

(** ** [!streamer] without a name *)

(** C10.  When the first argument of a [!streamer] message is missing or
    is the empty string, the streamer branch is skipped: the message goes
    to the curator-only section, which has no case for [!streamer], and
    the handler ends without any effect, in particular without a fetch
    and without a message, in whatever room it arrived. *)
Theorem streamer_without_name
    cfg pkg fetch_json event room body parts :
  getType event = "m.room.message" →
  getContent_body event = Some body →
  Js.split_space body = "!streamer" :: parts →
  parts !! 0%nat = None ∨ parts !! 0%nat = Some "" →
  Index.onRoomTimeline cfg pkg fetch_json event room
    = Index.curatorCommands cfg event room (Some "!streamer") parts
  ∧ run (Index.onRoomTimeline cfg pkg fetch_json event room) = ([], None).
Proof.
  intros Htype Hbody Hsplit Harg.
  assert (Hfalsy : Js.truthy (parts !! 0%nat) = false)
    by (destruct Harg as [-> | ->]; reflexivity).
  rewrite (index_dispatch cfg pkg fetch_json event room body "!streamer" parts)
    by done.
  rewrite Hfalsy. simpl. split; [reflexivity|].
  unfold Index.curatorCommands.
  by destruct (String.eqb (roomId room) (curators (Index.rooms cfg))).
Qed.

Lemma streamer_without_name_witness :
  Index.onRoomTimeline sample_cfg sample_pkg sample_fetch
    (message "!streamer " "!curators:woke.net" "@admin:woke.net")
    (room_with_level "!curators:woke.net" 100)
  = Index.curatorCommands sample_cfg
      (message "!streamer " "!curators:woke.net" "@admin:woke.net")
      (room_with_level "!curators:woke.net" 100) (Some "!streamer") [""]
  ∧ run (Index.onRoomTimeline sample_cfg sample_pkg sample_fetch
           (message "!streamer " "!curators:woke.net" "@admin:woke.net")
           (room_with_level "!curators:woke.net" 100)) = ([], None).
Proof.
  apply (streamer_without_name sample_cfg sample_pkg sample_fetch _ _
           "!streamer " [""]);
    [reflexivity | reflexivity | reflexivity | right; reflexivity].
Defined.

(** ** [!view] without arguments *)

(** C5.  A [!view] or [!v] message with no argument token, arriving in the
    curators room, has exactly one effect: the notice
    [Please use !end to clear the view.] to the room the event came from.
    No state event is published and no topic is set. *)
Theorem view_without_arguments
    cfg pkg fetch_json event room body cmd :
  getType event = "m.room.message" →
  getContent_body event = Some body →
  Js.split_space body = [cmd] →
  cmd = "!view" ∨ cmd = "!v" →
  roomId room = curators (Index.rooms cfg) →
  run (Index.onRoomTimeline cfg pkg fetch_json event room)
  = ([SendNotice (getRoomId event) "Please use !end to clear the view." ""],
     None).
Proof.
  intros Htype Hbody Hsplit Hcmd Hroom.
  rewrite (index_dispatch cfg pkg fetch_json event room body cmd [])
    by (try done; destruct Hcmd as [-> | ->]; discriminate).
  destruct Hcmd as [-> | ->]; simpl;
    enter_curators_room Hroom; reflexivity.
Qed.

Lemma view_without_arguments_witness :
  run (Index.onRoomTimeline sample_cfg sample_pkg sample_fetch
         (message "!view" "!curators:woke.net" "@curator:woke.net")
         (room_with_level "!curators:woke.net" 50))
  = ([SendNotice "!curators:woke.net" "Please use !end to clear the view." ""],
     None).
Proof.
  apply (view_without_arguments sample_cfg sample_pkg sample_fetch
           (message "!view" "!curators:woke.net" "@curator:woke.net")
           (room_with_level "!curators:woke.net" 50) "!view" "!view");
    [reflexivity | reflexivity | reflexivity | left; reflexivity | reflexivity].
Defined.

(** ** [!end] *)

(** C7.  An [!end] or [!e] message accepted in the curators room, with any
    arguments after the command, publishes one state event to the anchor
    room, of type [net.woke.anchor.view], with the content
    [{ kind: 'offline' }] and the empty state key, and then sends one
    notice to the curators room; it has no other effect.  The handler
    reads no earlier view, so the result does not depend on one. *)
Theorem end_publishes_offline
    cfg pkg fetch_json event room body cmd parts :
  getType event = "m.room.message" →
  getContent_body event = Some body →
  Js.split_space body = cmd :: parts →
  cmd = "!end" ∨ cmd = "!e" →
  roomId room = curators (Index.rooms cfg) →
  run (Index.onRoomTimeline cfg pkg fetch_json event room)
  = ([SendStateEvent (anchor (Index.rooms cfg)) "net.woke.anchor.view"
        OfflineContent "";
      SendNotice (curators (Index.rooms cfg)) "Broadcast ended." ""],
     None).
Proof.
  intros Htype Hbody Hsplit Hcmd Hroom.
  rewrite (index_dispatch cfg pkg fetch_json event room body cmd parts)
    by (try done; destruct Hcmd as [-> | ->]; discriminate).
  destruct Hcmd as [-> | ->]; simpl;
    enter_curators_room Hroom; reflexivity.
Qed.

Lemma end_publishes_offline_witness :
  run (Index.onRoomTimeline sample_cfg sample_pkg sample_fetch
         (message "!e now please" "!curators:woke.net" "@curator:woke.net")
         (room_with_level "!curators:woke.net" 50))
  = ([SendStateEvent "!anchor:woke.net" "net.woke.anchor.view"
        OfflineContent "";
      SendNotice "!curators:woke.net" "Broadcast ended." ""],
     None).
Proof.
  apply (end_publishes_offline sample_cfg sample_pkg sample_fetch
           (message "!e now please" "!curators:woke.net" "@curator:woke.net")
           (room_with_level "!curators:woke.net" 50)
           "!e now please" "!e" ["now"; "please"]);
    [reflexivity | reflexivity | reflexivity | right; reflexivity | reflexivity].
Defined.

(** ** [!announce] *)



(** The announcement text is the body after the first space, untouched. *)
Lemma announce_text_is_rest (cmd rest : string) :
  (∀ c, c ∈ list_ascii_of_string cmd → c ≠ " "%char) →
  ∃ parts, Js.split_space (cmd +:+ " " +:+ rest) = cmd :: parts
           ∧ Js.join_space parts = rest.
Proof.
  intros Hns. exists (Js.split_space rest).
  split; [by apply split_space_app | apply join_split_space].
Qed.

(** ** Alias resolution *)

(** C3.  A token that is a key of the alias table resolves to the view
    stored under it, as it is (kind, title, url and fill for the
    url-bearing kinds, or the live view whole).  A token that is not a key
    resolves to an embed view without title whose url is the token and
    whose fill is true exactly when the second argument token is the
    string [fill]. *)
Theorem resolve_alias_or_fallback (cfg : Index.Config) :
  (∀ token second view,
      Index.alias cfg !! token = Some view →
      Index.resolve cfg token second = view)
  ∧ (∀ token second,
      Index.alias cfg !! token = None →
      ∃ fill, Index.resolve cfg token second
              = Index.UrlView Index.embed None token fill
              ∧ (fill = true ↔ second = Some "fill")).
Proof.
  split.
  - intros token second view Hlook. unfold Index.resolve. by rewrite Hlook.
  - intros token second Hlook. unfold Index.resolve. rewrite Hlook.
    exists (Js.strict_eq second "fill"). split; [reflexivity|].
    destruct second as [s|]; simpl.
    + rewrite String.eqb_eq. split; [by intros -> | by intros [= ->]].
    + split; discriminate.
Qed.

Lemma resolve_alias_or_fallback_witness :
  Index.resolve sample_cfg "demo" (Some "fill") = demo_view
  ∧ ∃ fill, Index.resolve sample_cfg "https://x/other" (Some "fill")
            = Index.UrlView Index.embed None "https://x/other" fill
            ∧ (fill = true ↔ Some "fill" = Some "fill").
Proof.
  destruct (resolve_alias_or_fallback sample_cfg) as [Hhit Hmiss].
  split.
  - apply Hhit. reflexivity.
  - apply Hmiss. reflexivity.
Defined.

(** ** [!view] with a token *)

(** What [!view token ...] does in the curators room: the resolved view is
    published as the state of the anchor room, then the anchor room and
    the curators room are told its title. *)
Lemma view_publishes_resolved
    cfg pkg fetch_json event room body cmd token rest :
  getType event = "m.room.message" →
  getContent_body event = Some body →
  Js.split_space body = cmd :: token :: rest →
  cmd = "!view" ∨ cmd = "!v" →
  roomId room = curators (Index.rooms cfg) →
  let view := Index.resolve cfg token (rest !! 0%nat) in
  let text := "Now viewing: " +:+ Index.viewTitle view in
  run (Index.onRoomTimeline cfg pkg fetch_json event room)
  = ([SendStateEvent (anchor (Index.rooms cfg)) "net.woke.anchor.view"
        (ViewContent view) "";
      SendNotice (anchor (Index.rooms cfg)) text "";
      SendNotice (curators (Index.rooms cfg)) text ""],
     None).
Proof.
  intros Htype Hbody Hsplit Hcmd Hroom view text.
  rewrite (index_dispatch cfg pkg fetch_json event room body cmd (token :: rest))
    by (try done; destruct Hcmd as [-> | ->]; discriminate).
  destruct Hcmd as [-> | ->]; simpl;
    enter_curators_room Hroom; reflexivity.
Qed.

(** The notices of a two-notice trace, room by room. *)
Lemma notices_to_two_rooms {V} (a c text : string) (e : Effect V) :
  is_notice e = false → a ≠ c →
  notices_to a [e; SendNotice a text ""; SendNotice c text ""] = [text]
  ∧ notices_to c [e; SendNotice a text ""; SendNotice c text ""] = [text].
Proof.
  intros He Hne. unfold notices_to.
  assert (Hac : String.eqb a c = false) by by apply String.eqb_neq.
  assert (Hca : String.eqb c a = false) by by apply String.eqb_neq.
  destruct e; try discriminate; simpl;
    by rewrite !String.eqb_refl, ?Hac, ?Hca.
Qed.

(** C4, as the code has it.  With [demo] an alias of an embed view with
    url [https://x/demo] and no title, [!view demo] in the curators room
    publishes that view and then sends the notice
    [Now viewing: <https://x/demo>] to the anchor room and to the curators
    room: the url stands in for the title between angle brackets.  When
    the two rooms are different rooms, each gets this notice exactly
    once. *)
Theorem view_demo_notices cfg pkg fetch_json event room fill :
  Index.alias cfg !! "demo"
    = Some (Index.UrlView Index.embed None "https://x/demo" fill) →
  getType event = "m.room.message" →
  getContent_body event = Some "!view demo" →
  roomId room = curators (Index.rooms cfg) →
  run (Index.onRoomTimeline cfg pkg fetch_json event room)
  = ([SendStateEvent (anchor (Index.rooms cfg)) "net.woke.anchor.view"
        (ViewContent (Index.UrlView Index.embed None "https://x/demo" fill)) "";
      SendNotice (anchor (Index.rooms cfg)) "Now viewing: <https://x/demo>" "";
      SendNotice (curators (Index.rooms cfg)) "Now viewing: <https://x/demo>" ""],
     None)
  ∧ (anchor (Index.rooms cfg) ≠ curators (Index.rooms cfg) →
     notices_to (anchor (Index.rooms cfg))
       (trace (Index.onRoomTimeline cfg pkg fetch_json event room))
       = ["Now viewing: <https://x/demo>"]
     ∧ notices_to (curators (Index.rooms cfg))
       (trace (Index.onRoomTimeline cfg pkg fetch_json event room))
       = ["Now viewing: <https://x/demo>"]).
Proof.
  intros Halias Htype Hbody Hroom.
  assert (Hrun : run (Index.onRoomTimeline cfg pkg fetch_json event room)
    = ([SendStateEvent (anchor (Index.rooms cfg)) "net.woke.anchor.view"
          (ViewContent (Index.UrlView Index.embed None "https://x/demo" fill)) "";
        SendNotice (anchor (Index.rooms cfg)) "Now viewing: <https://x/demo>" "";
        SendNotice (curators (Index.rooms cfg)) "Now viewing: <https://x/demo>" ""],
       None)).
  { rewrite (view_publishes_resolved cfg pkg fetch_json event room
               "!view demo" "!view" "demo" []) by (auto; reflexivity).
    unfold Index.resolve. by rewrite Halias. }
  split; [exact Hrun|].
  intros Hne. unfold run in Hrun. injection Hrun as Htrace _.
  rewrite Htrace. by apply notices_to_two_rooms.
Qed.

Lemma view_demo_notices_witness :
  run (Index.onRoomTimeline sample_cfg sample_pkg sample_fetch
         (message "!view demo" "!curators:woke.net" "@curator:woke.net")
         (room_with_level "!curators:woke.net" 50))
  = ([SendStateEvent "!anchor:woke.net" "net.woke.anchor.view"
        (ViewContent demo_view) "";
      SendNotice "!anchor:woke.net" "Now viewing: <https://x/demo>" "";
      SendNotice "!curators:woke.net" "Now viewing: <https://x/demo>" ""],
     None)
  ∧ notices_to "!anchor:woke.net"
      (trace (Index.onRoomTimeline sample_cfg sample_pkg sample_fetch
                (message "!view demo" "!curators:woke.net" "@curator:woke.net")
                (room_with_level "!curators:woke.net" 50)))
    = ["Now viewing: <https://x/demo>"]
  ∧ notices_to "!curators:woke.net"
      (trace (Index.onRoomTimeline sample_cfg sample_pkg sample_fetch
                (message "!view demo" "!curators:woke.net" "@curator:woke.net")
                (room_with_level "!curators:woke.net" 50)))
    = ["Now viewing: <https://x/demo>"].
Proof.
  destruct (view_demo_notices sample_cfg sample_pkg sample_fetch
              (message "!view demo" "!curators:woke.net" "@curator:woke.net")
              (room_with_level "!curators:woke.net" 50) false)
    as [Hrun Hrooms]; [reflexivity | reflexivity | reflexivity | reflexivity |].
  split; [exact Hrun|]. apply Hrooms. discriminate.
Defined.

(** C4, as the specification words it, fails on [src/index.ts]: the notice to the
    anchor room is not the bare [Now viewing: https://x/demo]. *)
Lemma view_demo_notice_counterexample :
  Index.alias sample_cfg !! "demo"
    = Some (Index.UrlView Index.embed None "https://x/demo" false)
  ∧ notices_to "!anchor:woke.net"
      (trace (Index.onRoomTimeline sample_cfg sample_pkg sample_fetch
                (message "!view demo" "!curators:woke.net" "@curator:woke.net")
                (room_with_level "!curators:woke.net" 50)))
    ≠ ["Now viewing: https://x/demo"].
Proof. split; [reflexivity | discriminate]. Qed.

(** ** [!streamer] *)

(** [Array.prototype.find]: the first element that passes the test. *)
Lemma find_first {A} (f : A → bool) (before : list A) (x : A) (after : list A) :
  f x = true → Forall (λ y, f y = false) before →
  find f (before ++ x :: after) = Some x.
Proof.
  intros Hx Hbefore. induction Hbefore as [|y before Hy _ IH]; simpl.
  - by rewrite Hx.
  - by rewrite Hy.
Qed.

Lemma find_nothing {A} (f : A → bool) (l : list A) :
  Forall (λ y, f y = false) l → find f l = None.
Proof.
  intros Hl. induction Hl as [|y l Hy _ IH]; simpl; [done|]. by rewrite Hy.
Qed.

(** Either some entry passes the test, and then there is a first one, or
    none does. *)
Lemma first_or_none {A} (f : A → bool) (l : list A) :
  (∃ before x after,
      l = before ++ x :: after ∧ f x = true
      ∧ Forall (λ y, f y = false) before)
  ∨ Forall (λ y, f y = false) l.
Proof.
  induction l as [|y l [(before & x & after & -> & Hx & Hb)|Hnone]].
  - right. constructor.
  - destruct (f y) eqn:Hy.
    + left. exists [], y, (before ++ x :: after). by repeat split.
    + left. exists (y :: before), x, after. repeat split; [done|].
      by constructor.
  - destruct (f y) eqn:Hy.
    + left. exists [], y, l. by repeat split.
    + right. by constructor.
Qed.

Lemma streamerCommand_found cfg fetch_json parts name rest streamers streamer :
  parts = name :: rest →
  fetch_json (Index.apiUrl cfg +:+ "/streamers/index.json") = Some streamers →
  find (λ s, String.eqb (Index.matchKey (slug s)) (Index.matchKey name))
       streamers = streamer →
  run (Index.streamerCommand cfg fetch_json parts)
  = (Fetch (Index.apiUrl cfg +:+ "/streamers/index.json")
       :: match streamer with
          | Some s => [SendMessage (anchor (Index.rooms cfg))
                                   (Index.streamerMessage cfg s) ""]
          | None => []
          end,
     None).
Proof.
  intros -> Hfetch Hfind. unfold Index.streamerCommand.
  rewrite Hfetch. simpl nth. rewrite Hfind.
  by destruct streamer.
Qed.

(** [!streamer name ...] with a non-empty name, when the directory
    was fetched: the name and each slug are normalised by [matchKey]
    (lower-case, then drop everything outside [a-z]) and compared.  The
    first entry of the directory whose normalised slug equals the
    normalised name is the one referenced by the single message sent to
    the anchor room; when no entry matches, nothing is sent.  In both
    cases the only other effect is the fetch itself. *)
Theorem streamer_lookup
    cfg pkg fetch_json event room body name rest streamers :
  getType event = "m.room.message" →
  getContent_body event = Some body →
  Js.split_space body = "!streamer" :: name :: rest →
  name ≠ "" →
  fetch_json (Index.apiUrl cfg +:+ "/streamers/index.json") = Some streamers →
  (∀ before streamer after,
      streamers = before ++ streamer :: after →
      Index.matchKey (slug streamer) = Index.matchKey name →
      Forall (λ s, Index.matchKey (slug s) ≠ Index.matchKey name) before →
      run (Index.onRoomTimeline cfg pkg fetch_json event room)
      = ([Fetch (Index.apiUrl cfg +:+ "/streamers/index.json");
          SendMessage (anchor (Index.rooms cfg))
                      (Index.streamerMessage cfg streamer) ""],
         None))
  ∧ (Forall (λ s, Index.matchKey (slug s) ≠ Index.matchKey name) streamers →
      run (Index.onRoomTimeline cfg pkg fetch_json event room)
      = ([Fetch (Index.apiUrl cfg +:+ "/streamers/index.json")], None)).
Proof.
  intros Htype Hbody Hsplit Hname Hfetch.
  rewrite (index_dispatch cfg pkg fetch_json event room body "!streamer"
             (name :: rest)) by done.
  assert (Htruthy : Js.truthy ((name :: rest) !! 0%nat) = true).
  { simpl. by apply negb_true_iff, String.eqb_neq. }
  rewrite Htruthy. simpl.
  split.
  - intros before streamer after -> Hmatch Hbefore.
    apply (streamerCommand_found cfg fetch_json _ name rest
             (before ++ streamer :: after) (Some streamer)); [done | done |].
    apply find_first; [by apply String.eqb_eq|].
    eapply Forall_impl; [exact Hbefore|].
    intros s Hs. by apply String.eqb_neq.
  - intros Hnone.
    apply (streamerCommand_found cfg fetch_json _ name rest streamers None);
      [done | done |].
    apply find_nothing. eapply Forall_impl; [exact Hnone|].
    intros s Hs. by apply String.eqb_neq.
Qed.

Lemma streamer_lookup_witness :
  run (Index.onRoomTimeline sample_cfg sample_pkg sample_fetch
         (message "!streamer abc" "!lobby:woke.net" "@guest:woke.net")
         (room_with_level "!lobby:woke.net" 0))
  = ([Fetch "https://api.woke.net/streamers/index.json";
      SendMessage "!anchor:woke.net"
        {| msgtype := "m.notice";
           body := "ABC: https://woke.net/streamers/a-b-c";
           format := "net.woke.streamer";
           net_woke_streamer := {| slug := "a-b-c"; name := "ABC" |} |} ""],
     None)
  ∧ run (Index.onRoomTimeline sample_cfg sample_pkg sample_fetch
           (message "!streamer nobody" "!lobby:woke.net" "@guest:woke.net")
           (room_with_level "!lobby:woke.net" 0))
    = ([Fetch "https://api.woke.net/streamers/index.json"], None).
Proof.
  split.
  - destruct (streamer_lookup sample_cfg sample_pkg sample_fetch
                (message "!streamer abc" "!lobby:woke.net" "@guest:woke.net")
                (room_with_level "!lobby:woke.net" 0)
                "!streamer abc" "abc" [] sample_directory)
      as [Hfound _];
      [reflexivity | reflexivity | reflexivity | discriminate | reflexivity |].
    apply (Hfound [ {| slug := "x-y"; name := "XY" |} ]
                  {| slug := "a-b-c"; name := "ABC" |} []);
      [reflexivity | reflexivity | repeat constructor; discriminate].
  - destruct (streamer_lookup sample_cfg sample_pkg sample_fetch
                (message "!streamer nobody" "!lobby:woke.net" "@guest:woke.net")
                (room_with_level "!lobby:woke.net" 0)
                "!streamer nobody" "nobody" [] sample_directory)
      as [_ Hnone];
      [reflexivity | reflexivity | reflexivity | discriminate | reflexivity |].
    apply Hnone. repeat constructor; discriminate.
Defined.

(** *** What [matchKey] keeps *)

Lemma strip_non_a_z_only_a_z (s : string) (c : ascii) :
  c ∈ list_ascii_of_string (Js.strip_non_a_z s) → Js.is_lower c = true.
Proof.
  induction s as [|d s IH]; simpl.
  - intros Hin. by apply elem_of_nil in Hin.
  - destruct (Js.is_lower d) eqn:Hd; [|exact IH].
    simpl. intros [-> | Hin]%elem_of_cons; auto.
Qed.

(** X17.  A normalised key holds small letters [a-z] and nothing else. *)
Lemma matchKey_only_a_z (s : string) (c : ascii) :
  c ∈ list_ascii_of_string (Index.matchKey s) → Js.is_lower c = true.
Proof. apply strip_non_a_z_only_a_z. Qed.

Lemma is_lower_lower_ascii (c : ascii) :
  Js.is_lower (Js.lower_ascii c) = Js.is_upper c || Js.is_lower c.
Proof. by destruct c as [[] [] [] [] [] [] [] []]. Qed.

Lemma toLowerCase_ascii_head (c : ascii) (s : string) :
  (nat_of_ascii c <? 128)%nat = true →
  Js.toLowerCase (String c s)
  = String (Js.lower_ascii c) (Js.toLowerCase s).
Proof.
  intros Hc.
  assert (H196 : Js.byte_is c 196 = false).
  { unfold Js.byte_is. apply Nat.eqb_neq. apply Nat.ltb_lt in Hc. lia. }
  assert (H226 : Js.byte_is c 226 = false).
  { unfold Js.byte_is. apply Nat.eqb_neq. apply Nat.ltb_lt in Hc. lia. }
  cbn [Js.toLowerCase]. rewrite H196, H226.
  destruct s as [|c2 [|c3 s3]]; reflexivity.
Qed.

(** X16.  On ASCII text [matchKey] is the normalisation of the
    specification: lower-case, letters only. *)
Lemma matchKey_ascii (s : string) :
  ascii_only s = true → Index.matchKey s = spec_normalize s.
Proof.
  unfold Index.matchKey.
  induction s as [|c s IH]; [reflexivity|].
  cbn [ascii_only]. intros [Hc Hs]%andb_true_iff.
  rewrite toLowerCase_ascii_head by done.
  cbn [Js.strip_non_a_z spec_normalize].
  rewrite is_lower_lower_ascii, IH by done. reflexivity.
Qed.

(** The scenario of the specification: [abc] finds the slug [a-b-c]. *)
Example matchKey_strips_hyphens :
  Index.matchKey "a-b-c" = "abc" ∧ Index.matchKey "abc" = "abc"
  ∧ Index.matchKey "A.B.C 123" = "abc".
Proof. repeat split. Qed.

(** ** The power-level check *)

(** In the earlier revision a curator-only command that arrives in the
    curators room gets as far as the member lookup: what is left of the
    handler is the lookup and whatever follows it. *)
Ltac part001_to_member_lookup Htype Hbody Hsplit Hcmd Hroom :=
  unfold Part001.onRoomTimeline;
  rewrite Htype, Hbody, String.eqb_refl; simpl negb; rewrite when_false;
  rewrite (split_space_body_nonempty _ _ _ Hsplit
             (curator_only_nonempty _ Hcmd)), when_false;
  rewrite Hsplit; cbn [Js.shift];
  destruct (curator_only_cases _ Hcmd) as [->|[->|[->|[->|[->| ->]]]]];
  cbn [Js.strict_eq String.eqb Ascii.eqb Bool.eqb];
  rewrite Hroom, String.eqb_refl; simpl negb; rewrite when_false.

(** C1, for the revision that has the check.  A curator-only command
    ([!view], [!v], [!end], [!e], [!announce], [!a]) that arrives in the
    curators room from a sender whose member entry carries a power level
    below 50 ends the handler at the check: nothing is published, no
    topic is set, no notice is sent, and nothing is thrown. *)
Theorem part001_low_power_is_silent
    cfg pkg event room body cmd parts member :
  getType event = "m.room.message" →
  getContent_body event = Some body →
  Js.split_space body = cmd :: parts →
  curator_only cmd = true →
  roomId room = curators (Part001.rooms cfg) →
  getMember room (getSender event) = Some member →
  (powerLevel member < 50)%Z →
  run (Part001.onRoomTimeline cfg pkg event room) = ([], None).
Proof.
  intros Htype Hbody Hsplit Hcmd Hroom Hmember Hlevel.
  apply Z.ltb_lt in Hlevel.
  part001_to_member_lookup Htype Hbody Hsplit Hcmd Hroom;
    rewrite Hmember; cbn [Part001.get_powerLevel];
    rewrite bind_ret_l, Hlevel; reflexivity.
Qed.

Lemma part001_low_power_is_silent_witness :
  run (Part001.onRoomTimeline sample_cfg_001 sample_pkg
         (message "!view demo" "!curators:woke.net" "@guest:woke.net")
         (room_with_level "!curators:woke.net" 49)) = ([], None).
Proof.
  apply (part001_low_power_is_silent sample_cfg_001 sample_pkg
           (message "!view demo" "!curators:woke.net" "@guest:woke.net")
           (room_with_level "!curators:woke.net" 49)
           "!view demo" "!view" ["demo"] {| powerLevel := 49 |});
    [reflexivity | reflexivity | reflexivity | reflexivity | reflexivity
    | reflexivity | simpl; lia].
Defined.

(** X1.  [src/index.ts] never calls [room.getMember]: two rooms with the
    same id give the same run, whatever they say about the members. *)
Lemma index_ignores_members cfg pkg fetch_json event room room' :
  roomId room = roomId room' →
  Index.onRoomTimeline cfg pkg fetch_json event room
  = Index.onRoomTimeline cfg pkg fetch_json event room'.
Proof.
  intros Hid. unfold Index.onRoomTimeline, Index.curatorCommands.
  by rewrite Hid.
Qed.

(** C1, as the specification words it, fails on [src/index.ts]: [!end] sent in the
    curators room by a member of power level 0 ends the broadcast. *)
Lemma index_low_power_counterexample :
  roomId (room_with_level "!curators:woke.net" 0)
    = curators (Index.rooms sample_cfg)
  ∧ getMember (room_with_level "!curators:woke.net" 0)
      (getSender (message "!end" "!curators:woke.net" "@guest:woke.net"))
    = Some {| powerLevel := 0 |}
  ∧ run (Index.onRoomTimeline sample_cfg sample_pkg sample_fetch
           (message "!end" "!curators:woke.net" "@guest:woke.net")
           (room_with_level "!curators:woke.net" 0))
    = ([SendStateEvent "!anchor:woke.net" "net.woke.anchor.view"
          OfflineContent "";
        SendNotice "!curators:woke.net" "Broadcast ended." ""],
       None)
  ∧ run (Index.onRoomTimeline sample_cfg sample_pkg sample_fetch
           (message "!end" "!curators:woke.net" "@guest:woke.net")
           (room_with_level "!curators:woke.net" 0))
    ≠ ([], None).
Proof. repeat split. discriminate. Qed.

(** ** A sender the room does not know *)

(** C2, what the code does.  In the revision with the check, a
    curator-only command that arrives in the curators room from a sender
    for whom [room.getMember] returns [null] makes the handler throw a
    [TypeError] at [sender.powerLevel]; no effect precedes the throw. *)
Theorem part001_unknown_sender_throws
    cfg pkg event room body cmd parts :
  getType event = "m.room.message" →
  getContent_body event = Some body →
  Js.split_space body = cmd :: parts →
  curator_only cmd = true →
  roomId room = curators (Part001.rooms cfg) →
  getMember room (getSender event) = None →
  run (Part001.onRoomTimeline cfg pkg event room) = ([], Some TypeError).
Proof.
  intros Htype Hbody Hsplit Hcmd Hroom Hmember.
  part001_to_member_lookup Htype Hbody Hsplit Hcmd Hroom;
    rewrite Hmember; reflexivity.
Qed.

Lemma part001_unknown_sender_throws_witness :
  run (Part001.onRoomTimeline sample_cfg_001 sample_pkg
         (message "!end" "!curators:woke.net" "@stranger:woke.net")
         (room_without_members "!curators:woke.net"))
  = ([], Some TypeError).
Proof.
  apply (part001_unknown_sender_throws sample_cfg_001 sample_pkg
           (message "!end" "!curators:woke.net" "@stranger:woke.net")
           (room_without_members "!curators:woke.net")
           "!end" "!end" []);
    reflexivity.
Defined.

(** In [src/index.ts] the same message is carried out: there is no
    lookup to fail. *)
Example index_unknown_sender_is_served :
  run (Index.onRoomTimeline sample_cfg sample_pkg sample_fetch
         (message "!end" "!curators:woke.net" "@stranger:woke.net")
         (room_without_members "!curators:woke.net"))
  = ([SendStateEvent "!anchor:woke.net" "net.woke.anchor.view"
        OfflineContent "";
      SendNotice "!curators:woke.net" "Broadcast ended." ""],
     None).
Proof. reflexivity. Qed.

(** ** The earlier revision, for a sender of power level 50 or more *)


Example part001_view_demo_bare_url :
  run (Part001.onRoomTimeline sample_cfg_001 sample_pkg
         (message "!view demo" "!curators:woke.net" "@curator:woke.net")
         (room_with_level "!curators:woke.net" 50))
  = ([SendStateEvent "!anchor:woke.net" "net.woke.anchor.view"
        (ViewContent demo_view_001) "";
      SendNotice "!anchor:woke.net" "Now viewing: https://x/demo" "";
      SendNotice "!curators:woke.net" "Now viewing: https://x/demo" ""],
     None).
Proof. reflexivity. Qed.

Lemma part001_authorized_commands
    cfg pkg event room body cmd parts member :
  getType event = "m.room.message" →
  getContent_body event = Some body →
  Js.split_space body = cmd :: parts →
  roomId room = curators (Part001.rooms cfg) →
  getMember room (getSender event) = Some member →
  (50 ≤ powerLevel member)%Z →
  ((cmd = "!view" ∨ cmd = "!v") → parts = [] →
   run (Part001.onRoomTimeline cfg pkg event room)
   = ([SendNotice (getRoomId event) "Please use !end to clear the view." ""],
      None))
  ∧ ((cmd = "!end" ∨ cmd = "!e") →
     run (Part001.onRoomTimeline cfg pkg event room)
     = ([SendStateEvent (anchor (Part001.rooms cfg)) "net.woke.anchor.view"
           OfflineContent "";
         SendNotice (curators (Part001.rooms cfg)) "Broadcast ended." ""],
        None))
  ∧ ((cmd = "!announce" ∨ cmd = "!a") →
     run (Part001.onRoomTimeline cfg pkg event room)
     = ([SetRoomTopic (anchor (Part001.rooms cfg)) (Js.join_space parts);
         SendNotice (announcements (Part001.rooms cfg))
                    (Js.join_space parts) "";
         SendNotice (curators (Part001.rooms cfg)) "Announcement sent." ""],
        None)).
Proof.
  intros Htype Hbody Hsplit Hroom Hmember Hlevel.
  assert (Hge : (powerLevel member <? 50)%Z = false) by (apply Z.ltb_ge; lia).
  repeat split; intros Hcmd; try intros ->;
    (assert (Hcur : curator_only cmd = true)
       by (destruct Hcmd as [-> | ->]; reflexivity));
    part001_to_member_lookup Htype Hbody Hsplit Hcur Hroom;
    rewrite Hmember; cbn [Part001.get_powerLevel];
    rewrite bind_ret_l, Hge, when_false;
    solve [reflexivity | destruct Hcmd; discriminate].
Qed.

(** * Further properties of the handler *)

(** ** Case analysis of a whole run *)

(** Splits a run of [src/index.ts] along every test the handler makes. *)
Ltac index_run_cases :=
  unfold run, trace, thrown, Index.onRoomTimeline, Index.curatorCommands,
    Index.streamerCommand;
  repeat first
    [ progress cbn [fst snd negb andb orb when Js.shift Js.strict_eq
                    mbind mret M_bind M_ret bindM emit return_ forOf app]
    | match goal with
      | |- context [getContent_body ?e] =>
          destruct (getContent_body e) as [?body|] eqn:?
      | |- context [Js.split_space ?b] =>
          let H := fresh "Hsplit" in
          destruct (split_space_cons b) as (?cmd & ?parts & H); rewrite H
      | |- context [String.eqb ?a ?b] => destruct (String.eqb a b) eqn:?
      | |- context [Js.truthy ?v] => destruct (Js.truthy v) eqn:?
      | |- context [match ?f ?u with Some _ => _ | None => _ end] =>
          destruct (f u) eqn:?
      | |- context [match ?l with [] => _ | _ :: _ => _ end] =>
          destruct l eqn:?
      end ].

(** Proves [Forall P t] for an explicit trace [t], effect by effect. *)
Ltac forall_effects tac :=
  repeat match goal with
         | |- Forall _ [] => constructor
         | |- Forall _ (_ :: _) => constructor; [solve [tac] |]
         end.

(** ** [src/index.ts] on well-typed input *)

(** For an event whose body is a string or missing, and a directory
    answer that is an array of entries, the listener of [src/index.ts]
    ends without throwing, whatever the text, the room and the sender. *)
Theorem index_never_throws cfg pkg fetch_json event room :
  thrown (Index.onRoomTimeline cfg pkg fetch_json event room) = None.
Proof. index_run_cases; reflexivity. Qed.

(** ** Where the effects of [src/index.ts] go *)

(** X2.  In every run, each state event goes to the anchor room with type
    [net.woke.anchor.view] and the empty state key, each topic change and
    each streamer message goes to the anchor room, and each notice goes
    to the room of the event or to one of the three configured rooms. *)
Theorem index_effects_well_addressed cfg pkg fetch_json event room :
  Forall (well_addressed (Index.rooms cfg) (getRoomId event))
         (trace (Index.onRoomTimeline cfg pkg fetch_json event room)).
Proof.
  index_run_cases; forall_effects ltac:(simpl; auto 6).
Qed.

(** X3.  A message that arrives outside the curators room, whatever its
    text, publishes no state event and sets no topic. *)
Theorem index_outside_curators_room_no_state_no_topic
    cfg pkg fetch_json event room :
  roomId room ≠ curators (Index.rooms cfg) →
  Forall (λ e, is_state_event e = false ∧ is_topic_change e = false)
         (trace (Index.onRoomTimeline cfg pkg fetch_json event room)).
Proof.
  intros Hroom. apply String.eqb_neq in Hroom.
  index_run_cases; try congruence; forall_effects ltac:(by split).
Qed.

Lemma index_outside_curators_room_no_state_no_topic_witness :
  Forall (λ e, is_state_event e = false ∧ is_topic_change e = false)
         (trace (Index.onRoomTimeline sample_cfg sample_pkg sample_fetch
                   (message "!streamer abc" "!anchor:woke.net" "@guest:woke.net")
                   (room_with_level "!anchor:woke.net" 100))).
Proof.
  apply (index_outside_curators_room_no_state_no_topic sample_cfg sample_pkg
           sample_fetch
           (message "!streamer abc" "!anchor:woke.net" "@guest:woke.net")
           (room_with_level "!anchor:woke.net" 100)).
  discriminate.
Defined.

(** ** Input that is not a command *)

(** X4.  An event of another type than [m.room.message], a message
    without body and a message with the empty body leave no effect. *)
Theorem index_ignores_non_messages cfg pkg fetch_json event room :
  getType event ≠ "m.room.message"
  ∨ getContent_body event = None
  ∨ getContent_body event = Some "" →
  run (Index.onRoomTimeline cfg pkg fetch_json event room) = ([], None).
Proof.
  intros [Htype | [Hbody | Hbody]].
  - apply String.eqb_neq in Htype.
    unfold Index.onRoomTimeline. by rewrite Htype.
  - unfold Index.onRoomTimeline. rewrite Hbody.
    by destruct (String.eqb (getType event) "m.room.message").
  - unfold Index.onRoomTimeline. rewrite Hbody.
    by destruct (String.eqb (getType event) "m.room.message").
Qed.

Lemma index_ignores_non_messages_witness :
  run (Index.onRoomTimeline sample_cfg sample_pkg sample_fetch
         {| getType := "m.room.member"; getContent_body := Some "!end";
            getRoomId := "!curators:woke.net";
            getSender := "@curator:woke.net" |}
         (room_with_level "!curators:woke.net" 100)) = ([], None).
Proof.
  apply (index_ignores_non_messages sample_cfg sample_pkg sample_fetch
           {| getType := "m.room.member"; getContent_body := Some "!end";
              getRoomId := "!curators:woke.net";
              getSender := "@curator:woke.net" |}
           (room_with_level "!curators:woke.net" 100)).
  left. discriminate.
Defined.

(** X5.  A message whose first piece is none of [!bot], [!streamer] and
    the six curator commands leaves no effect, in any room.  The
    comparison is exact: another case ([!End]), a leading space (first
    piece empty) or a longer word ([!ending]) is not a command. *)
Theorem index_ignores_unknown_commands
    cfg pkg fetch_json event room body cmd parts :
  getContent_body event = Some body →
  Js.split_space body = cmd :: parts →
  cmd ≠ "!bot" → cmd ≠ "!streamer" → curator_only cmd = false →
  run (Index.onRoomTimeline cfg pkg fetch_json event room) = ([], None).
Proof.
  intros Hbody Hsplit Hbot Hstreamer Hcur.
  apply String.eqb_neq in Hbot. apply String.eqb_neq in Hstreamer.
  unfold curator_only in Hcur. cbn [existsb] in Hcur.
  rewrite !orb_false_iff in Hcur.
  destruct Hcur as (Hv1 & Hv2 & He1 & He2 & Ha1 & Ha2 & _).
  unfold Index.onRoomTimeline, Index.curatorCommands. rewrite Hbody, Hsplit.
  cbn [Js.shift Js.strict_eq].
  rewrite Hbot, Hstreamer, Hv1, Hv2, He1, He2, Ha1, Ha2.
  destruct (String.eqb (getType event) "m.room.message");
    destruct (String.eqb body "");
    destruct (String.eqb (roomId room) (curators (Index.rooms cfg)));
    reflexivity.
Qed.

Lemma index_ignores_unknown_commands_witness :
  run (Index.onRoomTimeline sample_cfg sample_pkg sample_fetch
         (message " !end" "!curators:woke.net" "@curator:woke.net")
         (room_with_level "!curators:woke.net" 100)) = ([], None)
  ∧ run (Index.onRoomTimeline sample_cfg sample_pkg sample_fetch
           (message "!End" "!curators:woke.net" "@curator:woke.net")
           (room_with_level "!curators:woke.net" 100)) = ([], None).
Proof.
  split.
  - apply (index_ignores_unknown_commands sample_cfg sample_pkg sample_fetch
             (message " !end" "!curators:woke.net" "@curator:woke.net")
             (room_with_level "!curators:woke.net" 100) " !end" "" ["!end"]);
      [reflexivity | reflexivity | discriminate | discriminate | reflexivity].
  - apply (index_ignores_unknown_commands sample_cfg sample_pkg sample_fetch
             (message "!End" "!curators:woke.net" "@curator:woke.net")
             (room_with_level "!curators:woke.net" 100) "!End" "!End" []);
      [reflexivity | reflexivity | discriminate | discriminate | reflexivity].
Defined.

(** ** [!bot] *)

(** X6.  [!bot], with or without further words, from any room and any
    sender, has one effect: the notice with the package name, version
    and homepage, sent to the room of the event. *)
Theorem index_bot_replies_anywhere
    cfg pkg fetch_json event room body parts :
  getType event = "m.room.message" →
  getContent_body event = Some body →
  Js.split_space body = "!bot" :: parts →
  run (Index.onRoomTimeline cfg pkg fetch_json event room)
  = ([SendNotice (getRoomId event)
        ("🤖 " +:+ pkg_name pkg +:+ " v" +:+ pkg_version pkg
         +:+ " (" +:+ pkg_homepage pkg +:+ ")") ""],
     None).
Proof.
  intros Htype Hbody Hsplit.
  by rewrite (index_dispatch cfg pkg fetch_json event room body "!bot" parts).
Qed.

Lemma index_bot_replies_anywhere_witness :
  run (Index.onRoomTimeline sample_cfg sample_pkg sample_fetch
         (message "!bot please" "!lobby:woke.net" "@guest:woke.net")
         (room_without_members "!lobby:woke.net"))
  = ([SendNotice "!lobby:woke.net"
        "🤖 anchorbot v1.0.0 (https://github.com/wokenet/anchorbot)" ""],
     None).
Proof.
  apply (index_bot_replies_anywhere sample_cfg sample_pkg sample_fetch
           (message "!bot please" "!lobby:woke.net" "@guest:woke.net")
           (room_without_members "!lobby:woke.net")
           "!bot please" ["please"]);
    reflexivity.
Defined.

(** ** [!streamer] when the directory cannot be fetched *)

(** X7.  When the fetch of the directory or the decoding of its answer
    fails, [!streamer name] logs one warning and ends: no message is
    sent to any room and nothing is thrown. *)
Theorem index_streamer_fetch_failure
    cfg pkg fetch_json event room body name rest :
  getType event = "m.room.message" →
  getContent_body event = Some body →
  Js.split_space body = "!streamer" :: name :: rest →
  name ≠ "" →
  fetch_json (Index.apiUrl cfg +:+ "/streamers/index.json") = None →
  run (Index.onRoomTimeline cfg pkg fetch_json event room)
  = ([Fetch (Index.apiUrl cfg +:+ "/streamers/index.json");
      ConsoleWarn "Failed to fetch streamers:"],
     None).
Proof.
  intros Htype Hbody Hsplit Hname Hfetch.
  rewrite (index_dispatch cfg pkg fetch_json event room body "!streamer"
             (name :: rest)) by done.
  apply String.eqb_neq in Hname.
  cbn [String.eqb Ascii.eqb Bool.eqb andb Js.truthy lookup list_lookup].
  simpl. rewrite Hname. simpl.
  unfold Index.streamerCommand. by rewrite Hfetch.
Qed.

Lemma index_streamer_fetch_failure_witness :
  run (Index.onRoomTimeline sample_cfg sample_pkg (λ _, None)
         (message "!streamer abc" "!lobby:woke.net" "@guest:woke.net")
         (room_with_level "!lobby:woke.net" 0))
  = ([Fetch "https://api.woke.net/streamers/index.json";
      ConsoleWarn "Failed to fetch streamers:"],
     None).
Proof.
  apply (index_streamer_fetch_failure sample_cfg sample_pkg (λ _, None)
           (message "!streamer abc" "!lobby:woke.net" "@guest:woke.net")
           (room_with_level "!lobby:woke.net" 0)
           "!streamer abc" "abc" []);
    [reflexivity | reflexivity | reflexivity | discriminate | reflexivity].
Defined.

(** ** The text of an announcement *)

(** X8.  The announcement is the body after the command and its one
    space, byte for byte: splitting on spaces and joining with spaces
    loses nothing, so runs of spaces and spaces at the end are kept. *)
Theorem index_announce_is_verbatim
    cfg pkg fetch_json event room cmd rest :
  getType event = "m.room.message" →
  getContent_body event = Some (cmd +:+ " " +:+ rest) →
  cmd = "!announce" ∨ cmd = "!a" →
  roomId room = curators (Index.rooms cfg) →
  run (Index.onRoomTimeline cfg pkg fetch_json event room)
  = ([SetRoomTopic (anchor (Index.rooms cfg)) rest;
      SendNotice (announcements (Index.rooms cfg)) rest "";
      SendNotice (curators (Index.rooms cfg)) "Announcement sent." ""],
     None).
Proof.
  intros Htype Hbody Hcmd Hroom.
  assert (Hsplit : Js.split_space (cmd +:+ " " +:+ rest)
                   = cmd :: Js.split_space rest).
  { apply split_space_app. intros c Hc.
    destruct Hcmd as [-> | ->]; simpl in Hc;
      repeat (apply elem_of_cons in Hc as [-> | Hc]; [discriminate|]);
      by apply elem_of_nil in Hc. }
  rewrite (index_dispatch cfg pkg fetch_json event room _ cmd
             (Js.split_space rest) Htype Hbody Hsplit)
    by (destruct Hcmd as [-> | ->]; discriminate).
  destruct Hcmd as [-> | ->]; simpl String.eqb; cbn [andb];
    enter_curators_room Hroom; cbn [Js.strict_eq String.eqb Ascii.eqb
      Bool.eqb orb]; rewrite join_split_space; reflexivity.
Qed.

Lemma index_announce_is_verbatim_witness :
  run (Index.onRoomTimeline sample_cfg sample_pkg sample_fetch
         (message "!a  Live  at 9 " "!curators:woke.net" "@curator:woke.net")
         (room_with_level "!curators:woke.net" 50))
  = ([SetRoomTopic "!anchor:woke.net" " Live  at 9 ";
      SendNotice "!announcements:woke.net" " Live  at 9 " "";
      SendNotice "!curators:woke.net" "Announcement sent." ""],
     None).
Proof.
  apply (index_announce_is_verbatim sample_cfg sample_pkg sample_fetch
           (message "!a  Live  at 9 " "!curators:woke.net" "@curator:woke.net")
           (room_with_level "!curators:woke.net" 50) "!a" " Live  at 9 ");
    [reflexivity | reflexivity | right; reflexivity | reflexivity].
Defined.

(** X9.  [!announce] alone, without any text, is carried out all the
    same: the topic of the anchor room is set to the empty string and
    the announcements room gets a notice with the empty text. *)
Theorem index_announce_without_text
    cfg pkg fetch_json event room cmd :
  getType event = "m.room.message" →
  getContent_body event = Some cmd →
  cmd = "!announce" ∨ cmd = "!a" →
  roomId room = curators (Index.rooms cfg) →
  run (Index.onRoomTimeline cfg pkg fetch_json event room)
  = ([SetRoomTopic (anchor (Index.rooms cfg)) "";
      SendNotice (announcements (Index.rooms cfg)) "" "";
      SendNotice (curators (Index.rooms cfg)) "Announcement sent." ""],
     None).
Proof.
  intros Htype Hbody Hcmd Hroom.
  rewrite (index_dispatch cfg pkg fetch_json event room cmd cmd [])
    by (try done; destruct Hcmd as [-> | ->]; (reflexivity || discriminate)).
  destruct Hcmd as [-> | ->]; simpl;
    enter_curators_room Hroom; reflexivity.
Qed.

Lemma index_announce_without_text_witness :
  run (Index.onRoomTimeline sample_cfg sample_pkg sample_fetch
         (message "!announce" "!curators:woke.net" "@curator:woke.net")
         (room_with_level "!curators:woke.net" 50))
  = ([SetRoomTopic "!anchor:woke.net" "";
      SendNotice "!announcements:woke.net" "" "";
      SendNotice "!curators:woke.net" "Announcement sent." ""],
     None).
Proof.
  apply (index_announce_without_text sample_cfg sample_pkg sample_fetch
           (message "!announce" "!curators:woke.net" "@curator:woke.net")
           (room_with_level "!curators:woke.net" 50) "!announce");
    [reflexivity | reflexivity | left; reflexivity | reflexivity].
Defined.

(** ** What [!view] publishes and says *)

(** X10.  [!view url] with a token that is no alias publishes an embed
    view without title whose url is the token, filling exactly when the
    next token is [fill], and tells both rooms the url between angle
    brackets.  Tokens after the second are ignored. *)
Theorem index_view_of_a_url
    cfg pkg fetch_json event room body cmd token rest :
  getType event = "m.room.message" →
  getContent_body event = Some body →
  Js.split_space body = cmd :: token :: rest →
  cmd = "!view" ∨ cmd = "!v" →
  roomId room = curators (Index.rooms cfg) →
  Index.alias cfg !! token = None →
  ∃ fill,
    (fill = true ↔ rest !! 0%nat = Some "fill")
    ∧ run (Index.onRoomTimeline cfg pkg fetch_json event room)
      = ([SendStateEvent (anchor (Index.rooms cfg)) "net.woke.anchor.view"
            (ViewContent (Index.UrlView Index.embed None token fill)) "";
          SendNotice (anchor (Index.rooms cfg))
            ("Now viewing: <" +:+ token +:+ ">") "";
          SendNotice (curators (Index.rooms cfg))
            ("Now viewing: <" +:+ token +:+ ">") ""],
         None).
Proof.
  intros Htype Hbody Hsplit Hcmd Hroom Halias.
  exists (Js.strict_eq (rest !! 0%nat) "fill"). split.
  - destruct (rest !! 0%nat) as [s|]; simpl.
    + rewrite String.eqb_eq. split; [by intros -> | by intros [= ->]].
    + split; discriminate.
  - rewrite (view_publishes_resolved cfg pkg fetch_json event room body cmd
               token rest) by done.
    unfold Index.resolve. by rewrite Halias.
Qed.

Lemma index_view_of_a_url_witness :
  ∃ fill,
    (fill = true ↔ ["fill"; "now"] !! 0%nat = Some "fill")
    ∧ run (Index.onRoomTimeline sample_cfg sample_pkg sample_fetch
             (message "!v https://x/cam fill now" "!curators:woke.net"
                      "@curator:woke.net")
             (room_with_level "!curators:woke.net" 50))
      = ([SendStateEvent "!anchor:woke.net" "net.woke.anchor.view"
            (ViewContent (Index.UrlView Index.embed None "https://x/cam" fill))
            "";
          SendNotice "!anchor:woke.net" "Now viewing: <https://x/cam>" "";
          SendNotice "!curators:woke.net" "Now viewing: <https://x/cam>" ""],
         None).
Proof.
  apply (index_view_of_a_url sample_cfg sample_pkg sample_fetch
           (message "!v https://x/cam fill now" "!curators:woke.net"
                    "@curator:woke.net")
           (room_with_level "!curators:woke.net" 50)
           "!v https://x/cam fill now" "!v" "https://x/cam" ["fill"; "now"]);
    [reflexivity | reflexivity | reflexivity | right; reflexivity
    | reflexivity | reflexivity].
Defined.

(** X11.  A space right after [!view] makes the empty string the token:
    the handler does not answer with the [!end] hint but, unless the
    empty string is an alias, publishes an embed view with the empty url
    and announces [Now viewing: <>]. *)
Theorem index_view_empty_token
    cfg pkg fetch_json event room cmd tail :
  getType event = "m.room.message" →
  getContent_body event = Some (cmd +:+ " " +:+ tail) →
  tail = "" ∨ (∃ r, tail = " " +:+ r) →
  cmd = "!view" ∨ cmd = "!v" →
  roomId room = curators (Index.rooms cfg) →
  Index.alias cfg !! "" = None →
  ∃ fill,
    run (Index.onRoomTimeline cfg pkg fetch_json event room)
    = ([SendStateEvent (anchor (Index.rooms cfg)) "net.woke.anchor.view"
          (ViewContent (Index.UrlView Index.embed None "" fill)) "";
        SendNotice (anchor (Index.rooms cfg)) "Now viewing: <>" "";
        SendNotice (curators (Index.rooms cfg)) "Now viewing: <>" ""],
       None).
Proof.
  intros Htype Hbody Htail Hcmd Hroom Halias.
  assert (Hsplit : ∃ more, Js.split_space (cmd +:+ " " +:+ tail)
                           = cmd :: "" :: more).
  { assert (Hhead : Js.split_space (cmd +:+ " " +:+ tail)
                    = cmd :: Js.split_space tail).
    { apply split_space_app. intros c Hc.
      destruct Hcmd as [-> | ->]; simpl in Hc;
        repeat (apply elem_of_cons in Hc as [-> | Hc]; [discriminate|]);
        by apply elem_of_nil in Hc. }
    rewrite Hhead. destruct Htail as [-> | [r ->]].
    - by exists [].
    - by exists (Js.split_space r). }
  destruct Hsplit as [more Hsplit].
  exists (Js.strict_eq (more !! 0%nat) "fill").
  rewrite (view_publishes_resolved cfg pkg fetch_json event room _ cmd
             "" more Htype Hbody Hsplit Hcmd Hroom).
  unfold Index.resolve. by rewrite Halias.
Qed.

Lemma index_view_empty_token_witness :
  ∃ fill,
    run (Index.onRoomTimeline sample_cfg sample_pkg sample_fetch
           (message "!view " "!curators:woke.net" "@curator:woke.net")
           (room_with_level "!curators:woke.net" 50))
    = ([SendStateEvent "!anchor:woke.net" "net.woke.anchor.view"
          (ViewContent (Index.UrlView Index.embed None "" fill)) "";
        SendNotice "!anchor:woke.net" "Now viewing: <>" "";
        SendNotice "!curators:woke.net" "Now viewing: <>" ""],
       None).
Proof.
  apply (index_view_empty_token sample_cfg sample_pkg sample_fetch
           (message "!view " "!curators:woke.net" "@curator:woke.net")
           (room_with_level "!curators:woke.net" 50) "!view" "");
    [reflexivity | reflexivity | left; reflexivity | left; reflexivity
    | reflexivity | reflexivity].
Defined.

(** X12.  An alias with a non-empty title is published as configured,
    whatever its kind and whatever follows the token (a [fill] after an
    alias changes nothing), and both rooms are told the title as it is. *)
Theorem index_view_titled_alias
    cfg pkg fetch_json event room body cmd token rest view t :
  getType event = "m.room.message" →
  getContent_body event = Some body →
  Js.split_space body = cmd :: token :: rest →
  cmd = "!view" ∨ cmd = "!v" →
  roomId room = curators (Index.rooms cfg) →
  Index.alias cfg !! token = Some view →
  Index.title view = Some t → t ≠ "" →
  run (Index.onRoomTimeline cfg pkg fetch_json event room)
  = ([SendStateEvent (anchor (Index.rooms cfg)) "net.woke.anchor.view"
        (ViewContent view) "";
      SendNotice (anchor (Index.rooms cfg)) ("Now viewing: " +:+ t) "";
      SendNotice (curators (Index.rooms cfg)) ("Now viewing: " +:+ t) ""],
     None).
Proof.
  intros Htype Hbody Hsplit Hcmd Hroom Halias Htitle Ht.
  rewrite (view_publishes_resolved cfg pkg fetch_json event room body cmd
             token rest) by done.
  unfold Index.resolve. rewrite Halias.
  unfold Index.viewTitle. rewrite Htitle. simpl.
  apply String.eqb_neq in Ht. by rewrite Ht.
Qed.

(** X13.  An alias of a live view whose title is missing or empty is
    published as configured, and both rooms are told
    [Now viewing: unknown]: a live view has no [url] to fall back on. *)
Theorem index_view_untitled_live_alias
    cfg pkg fetch_json event room body cmd token rest t hls_url dash_url :
  getType event = "m.room.message" →
  getContent_body event = Some body →
  Js.split_space body = cmd :: token :: rest →
  cmd = "!view" ∨ cmd = "!v" →
  roomId room = curators (Index.rooms cfg) →
  Index.alias cfg !! token = Some (Index.LiveView t hls_url dash_url) →
  t = None ∨ t = Some "" →
  run (Index.onRoomTimeline cfg pkg fetch_json event room)
  = ([SendStateEvent (anchor (Index.rooms cfg)) "net.woke.anchor.view"
        (ViewContent (Index.LiveView t hls_url dash_url)) "";
      SendNotice (anchor (Index.rooms cfg)) "Now viewing: unknown" "";
      SendNotice (curators (Index.rooms cfg)) "Now viewing: unknown" ""],
     None).
Proof.
  intros Htype Hbody Hsplit Hcmd Hroom Halias Ht.
  rewrite (view_publishes_resolved cfg pkg fetch_json event room body cmd
             token rest) by done.
  unfold Index.resolve. rewrite Halias.
  by destruct Ht as [-> | ->].
Qed.

Lemma index_view_titled_alias_witness :
  run (Index.onRoomTimeline sample_cfg_aliases sample_pkg sample_fetch
         (message "!view cam fill" "!curators:woke.net" "@curator:woke.net")
         (room_with_level "!curators:woke.net" 50))
  = ([SendStateEvent "!anchor:woke.net" "net.woke.anchor.view"
        (ViewContent titled_view) "";
      SendNotice "!anchor:woke.net" "Now viewing: Main camera" "";
      SendNotice "!curators:woke.net" "Now viewing: Main camera" ""],
     None).
Proof.
  apply (index_view_titled_alias sample_cfg_aliases sample_pkg sample_fetch
           (message "!view cam fill" "!curators:woke.net" "@curator:woke.net")
           (room_with_level "!curators:woke.net" 50)
           "!view cam fill" "!view" "cam" ["fill"] titled_view "Main camera");
    [reflexivity | reflexivity | reflexivity | left; reflexivity
    | reflexivity | reflexivity | reflexivity | discriminate].
Defined.

Lemma index_view_untitled_live_alias_witness :
  run (Index.onRoomTimeline sample_cfg_aliases sample_pkg sample_fetch
         (message "!v live" "!curators:woke.net" "@curator:woke.net")
         (room_with_level "!curators:woke.net" 50))
  = ([SendStateEvent "!anchor:woke.net" "net.woke.anchor.view"
        (ViewContent live_view) "";
      SendNotice "!anchor:woke.net" "Now viewing: unknown" "";
      SendNotice "!curators:woke.net" "Now viewing: unknown" ""],
     None).
Proof.
  apply (index_view_untitled_live_alias sample_cfg_aliases sample_pkg
           sample_fetch
           (message "!v live" "!curators:woke.net" "@curator:woke.net")
           (room_with_level "!curators:woke.net" 50)
           "!v live" "!v" "live" [] None
           "https://x/live.m3u8" "https://x/live.mpd");
    [reflexivity | reflexivity | reflexivity | right; reflexivity
    | reflexivity | reflexivity | left; reflexivity].
Defined.

(** ** Splitting and joining the body *)

(** X14.  [body.split(' ')] yields one piece more than the body has
    spaces, and no piece holds a space: an argument of a command never
    contains a space, and every extra space adds an empty argument. *)
Theorem split_space_pieces (s : string) :
  List.length (Js.split_space s) = S (count_spaces s)
  ∧ Forall (λ p, no_space p = true) (Js.split_space s).
Proof.
  induction s as [|c s [IHlen IHns]]; [by repeat constructor|].
  cbn [Js.split_space count_spaces].
  destruct (split_space_cons s) as (p & ps & Hs). rewrite Hs in *.
  destruct (Ascii.eqb c " ") eqn:Hc.
  - split; [simpl in *; lia | by constructor].
  - split; [simpl in *; lia|].
    inversion IHns as [|? ? Hp Hps]; subst. constructor; [|done].
    simpl. by rewrite Hc, Hp.
Qed.

Lemma split_space_no_space (s : string) :
  no_space s = true → Js.split_space s = [s].
Proof.
  induction s as [|c s IH]; [reflexivity|].
  cbn [no_space Js.split_space]. intros [Hc Hs]%andb_true_iff.
  apply negb_true_iff in Hc. by rewrite Hc, IH.
Qed.

Lemma split_space_append (p rest : string) :
  no_space p = true →
  Js.split_space (p +:+ " " +:+ rest) = p :: Js.split_space rest.
Proof.
  induction p as [|c p IH]; [reflexivity|].
  cbn [no_space]. intros [Hc Hp]%andb_true_iff.
  apply negb_true_iff in Hc.
  change (String c p +:+ " " +:+ rest) with (String c (p +:+ " " +:+ rest)).
  cbn [Js.split_space]. by rewrite Hc, IH.
Qed.

(** X15.  Splitting undoes joining: a non-empty list of space-free
    pieces, joined with single spaces and split again, is the same
    list. *)
Theorem split_join_space (parts : list string) :
  parts ≠ [] →
  Forall (λ p, no_space p = true) parts →
  Js.split_space (Js.join_space parts) = parts.
Proof.
  intros Hne Hparts. induction Hparts as [|p ps Hp Hps IH]; [done|].
  destruct ps as [|q ps].
  - by apply split_space_no_space.
  - rewrite join_space_cons, split_space_append by done.
    by rewrite IH.
Qed.

Lemma split_join_space_witness :
  Js.split_space (Js.join_space ["Going"; ""; "live"])
  = ["Going"; ""; "live"].
Proof.
  apply (split_join_space ["Going"; ""; "live"]);
    [discriminate | repeat constructor].
Defined.

(** ** The normalised key of the streamer lookup *)

Lemma matchKey_ascii_witness :
  Index.matchKey "A-b C_9!" = spec_normalize "A-b C_9!".
Proof. apply (matchKey_ascii "A-b C_9!"). reflexivity. Defined.

Lemma matchKey_only_a_z_witness : Js.is_lower "b" = true.
Proof.
  apply (matchKey_only_a_z "A-B" "b"). vm_compute. right. left.
Defined.

Lemma is_lower_plain (c : ascii) :
  Js.is_lower c = true →
  (nat_of_ascii c <? 128)%nat = true ∧ Js.lower_ascii c = c.
Proof.
  destruct c as [[] [] [] [] [] [] [] []]; intros H;
    solve [discriminate H | by split].
Qed.

Lemma a_z_is_fixed (s : string) :
  (∀ c, c ∈ list_ascii_of_string s → Js.is_lower c = true) →
  Js.toLowerCase s = s ∧ Js.strip_non_a_z s = s.
Proof.
  induction s as [|c s IH]; intros Hall; [done|].
  assert (Hc : Js.is_lower c = true) by (apply Hall; left).
  destruct (is_lower_plain c Hc) as [Hlt Hlow].
  destruct IH as [IHl IHs]; [intros d Hd; apply Hall; by right|].
  rewrite toLowerCase_ascii_head by done.
  cbn [Js.strip_non_a_z]. by rewrite Hlow, Hc, IHl, IHs.
Qed.

(** X18.  Normalising twice is normalising once: a key is already in
    the form it is compared in, so a directory whose slugs are keys is
    matched by those very keys. *)
Theorem matchKey_idempotent (s : string) :
  Index.matchKey (Index.matchKey s) = Index.matchKey s.
Proof.
  destruct (a_z_is_fixed (Index.matchKey s)) as [Hl Hs].
  { intros c. apply strip_non_a_z_only_a_z. }
  unfold Index.matchKey at 1. by rewrite Hl, Hs.
Qed.

(** * Further properties of the earlier revision *)

(** Splits a run of the earlier revision along every test it makes. *)
Ltac part001_run_cases :=
  unfold run, trace, thrown, Part001.onRoomTimeline;
  repeat first
    [ progress cbn [fst snd negb andb orb when Js.shift Js.strict_eq
                    mbind mret M_bind M_ret bindM emit return_ throw forOf
                    app Part001.get_powerLevel]
    | match goal with
      | |- context [getContent_body ?e] =>
          destruct (getContent_body e) as [?body|] eqn:?
      | |- context [Js.split_space ?b] =>
          let H := fresh "Hsplit" in
          destruct (split_space_cons b) as (?cmd & ?parts & H); rewrite H
      | |- context [String.eqb ?a ?b] => destruct (String.eqb a b) eqn:?
      | |- context [getMember ?r ?u] =>
          destruct (getMember r u) as [?member|] eqn:?
      | |- context [Z.ltb ?a ?b] => destruct (Z.ltb a b) eqn:?
      | |- context [match ?l with [] => _ | _ :: _ => _ end] =>
          destruct l eqn:?
      end ].

(** X19.  In the earlier revision [!bot] is answered before the room and
    the sender are looked at: from any room, and also from a sender the
    room does not know, it has the one effect of the notice to the room
    of the event, and nothing is thrown. *)
Theorem part001_bot_replies_anywhere cfg pkg event room body parts :
  getType event = "m.room.message" →
  getContent_body event = Some body →
  Js.split_space body = "!bot" :: parts →
  run (Part001.onRoomTimeline cfg pkg event room)
  = ([SendNotice (getRoomId event)
        ("🤖 " +:+ pkg_name pkg +:+ " v" +:+ pkg_version pkg
         +:+ " (" +:+ pkg_homepage pkg +:+ ")") ""],
     None).
Proof.
  intros Htype Hbody Hsplit.
  unfold Part001.onRoomTimeline.
  rewrite Htype, Hbody, String.eqb_refl. simpl negb. rewrite when_false.
  rewrite (split_space_body_nonempty _ _ _ Hsplit) by discriminate.
  rewrite when_false, Hsplit. reflexivity.
Qed.

Lemma part001_bot_replies_anywhere_witness :
  run (Part001.onRoomTimeline sample_cfg_001 sample_pkg
         (message "!bot" "!curators:woke.net" "@stranger:woke.net")
         (room_without_members "!curators:woke.net"))
  = ([SendNotice "!curators:woke.net"
        "🤖 anchorbot v1.0.0 (https://github.com/wokenet/anchorbot)" ""],
     None).
Proof.
  apply (part001_bot_replies_anywhere sample_cfg_001 sample_pkg
           (message "!bot" "!curators:woke.net" "@stranger:woke.net")
           (room_without_members "!curators:woke.net") "!bot" []);
    reflexivity.
Defined.

(** X20.  The earlier revision publishes a state event or sets a topic
    only for a message that arrived in the curators room from a sender
    whom the room knows with a power level of 50 or more. *)
Theorem part001_state_and_topic_need_level_50 cfg pkg event room :
  Exists (λ e, is_state_event e = true ∨ is_topic_change e = true)
         (trace (Part001.onRoomTimeline cfg pkg event room)) →
  roomId room = curators (Part001.rooms cfg)
  ∧ ∃ member, getMember room (getSender event) = Some member
              ∧ (50 ≤ powerLevel member)%Z.
Proof.
  part001_run_cases; intros Hex;
    repeat match goal with
           | H : Exists _ [] |- _ => inversion H
           | H : Exists _ (_ :: _) |- _ =>
               apply Exists_cons in H as [[H | H] | H]; try discriminate H
           end;
    (split; [by apply String.eqb_eq | eexists; split; [done|]]);
    by apply Z.ltb_ge.
Qed.

Lemma part001_state_and_topic_need_level_50_witness :
  roomId (room_with_level "!curators:woke.net" 50)
    = curators (Part001.rooms sample_cfg_001)
  ∧ ∃ member,
      getMember (room_with_level "!curators:woke.net" 50)
        (getSender (message "!end" "!curators:woke.net" "@curator:woke.net"))
      = Some member
      ∧ (50 ≤ powerLevel member)%Z.
Proof.
  apply (part001_state_and_topic_need_level_50 sample_cfg_001 sample_pkg
           (message "!end" "!curators:woke.net" "@curator:woke.net")
           (room_with_level "!curators:woke.net" 50)).
  left. left. reflexivity.
Defined.

(** X21.  In the earlier revision every message with a non-empty text
    whose first piece is not [!bot], arriving in the curators room from
    a sender the room does not know, makes the listener throw a
    [TypeError] before any effect.  The text need not be a command:
    ordinary talk in the curators room is enough. *)
Theorem part001_unknown_sender_any_text_throws
    cfg pkg event room body cmd parts :
  getType event = "m.room.message" →
  getContent_body event = Some body →
  body ≠ "" →
  Js.split_space body = cmd :: parts →
  cmd ≠ "!bot" →
  roomId room = curators (Part001.rooms cfg) →
  getMember room (getSender event) = None →
  run (Part001.onRoomTimeline cfg pkg event room) = ([], Some TypeError).
Proof.
  intros Htype Hbody Hne Hsplit Hcmd Hroom Hmember.
  apply String.eqb_neq in Hne. apply String.eqb_neq in Hcmd.
  unfold run, trace, thrown, Part001.onRoomTimeline.
  rewrite Htype, Hbody, String.eqb_refl. simpl negb.
  rewrite when_false, Hne, when_false, Hsplit.
  cbn [Js.shift Js.strict_eq]. rewrite Hcmd, Hroom, String.eqb_refl.
  simpl negb. rewrite when_false, Hmember. reflexivity.
Qed.

Lemma part001_unknown_sender_any_text_throws_witness :
  run (Part001.onRoomTimeline sample_cfg_001 sample_pkg
         (message "good morning" "!curators:woke.net" "@stranger:woke.net")
         (room_without_members "!curators:woke.net"))
  = ([], Some TypeError).
Proof.
  apply (part001_unknown_sender_any_text_throws sample_cfg_001 sample_pkg
           (message "good morning" "!curators:woke.net" "@stranger:woke.net")
           (room_without_members "!curators:woke.net")
           "good morning" "good" ["morning"]);
    [reflexivity | reflexivity | discriminate | reflexivity | discriminate
    | reflexivity | reflexivity].
Defined.

(** * The two revisions side by side *)

(** X22.  For a sender whom the room knows with a power level of 50 or
    more, [src/index.ts] does exactly what the earlier revision does on
    every message that is neither [!streamer] nor a [!view] with a
    token: the same effects in the same order, and neither throws. *)
Theorem revisions_agree_for_level_50
    cfg1 cfg pkg fetch_json event room body cmd parts member :
  Index.rooms cfg = Part001.rooms cfg1 →
  getContent_body event = Some body →
  Js.split_space body = cmd :: parts →
  getMember room (getSender event) = Some member →
  (50 ≤ powerLevel member)%Z →
  cmd ≠ "!streamer" →
  (cmd = "!view" ∨ cmd = "!v" → parts = []) →
  run (Index.onRoomTimeline cfg pkg fetch_json event room)
  = (map lift_effect (trace (Part001.onRoomTimeline cfg1 pkg event room)),
     thrown (Part001.onRoomTimeline cfg1 pkg event room)).
Proof.
  intros Hrooms Hbody Hsplit Hmember Hlevel Hstreamer Hview.
  apply Z.ltb_ge in Hlevel. apply String.eqb_neq in Hstreamer.
  unfold run, trace, thrown, Index.onRoomTimeline, Index.curatorCommands,
    Part001.onRoomTimeline.
  rewrite Hrooms, Hbody, Hsplit, Hmember.
  cbn [Js.shift Js.strict_eq]. rewrite Hstreamer. cbn [andb].
  destruct (String.eqb cmd "!view") eqn:Hv1;
    [apply String.eqb_eq in Hv1; rewrite (Hview (or_introl Hv1)) |
     destruct (String.eqb cmd "!v") eqn:Hv2;
     [apply String.eqb_eq in Hv2; rewrite (Hview (or_intror Hv2)) |]];
    repeat first
      [ progress cbn [fst snd negb andb orb when mbind mret M_bind M_ret
                      bindM emit return_ throw forOf app map lift_effect
                      lift_content Part001.get_powerLevel]
      | rewrite Hlevel
      | match goal with
        | |- context [String.eqb ?a ?b] => destruct (String.eqb a b) eqn:?
        end ];
    reflexivity.
Qed.

Lemma revisions_agree_for_level_50_witness :
  run (Index.onRoomTimeline sample_cfg sample_pkg sample_fetch
         (message "!announce Going live" "!curators:woke.net"
                  "@curator:woke.net")
         (room_with_level "!curators:woke.net" 50))
  = (map lift_effect
       (trace (Part001.onRoomTimeline sample_cfg_001 sample_pkg
                 (message "!announce Going live" "!curators:woke.net"
                          "@curator:woke.net")
                 (room_with_level "!curators:woke.net" 50))),
     thrown (Part001.onRoomTimeline sample_cfg_001 sample_pkg
               (message "!announce Going live" "!curators:woke.net"
                        "@curator:woke.net")
               (room_with_level "!curators:woke.net" 50))).
Proof.
  apply (revisions_agree_for_level_50 sample_cfg_001 sample_cfg sample_pkg
           sample_fetch
           (message "!announce Going live" "!curators:woke.net"
                    "@curator:woke.net")
           (room_with_level "!curators:woke.net" 50)
           "!announce Going live" "!announce" ["Going"; "live"]
           {| powerLevel := 50 |});
    [reflexivity | reflexivity | reflexivity | reflexivity | simpl; lia
    | discriminate | intros [H | H]; discriminate H].
Defined.



(** * The single-room listeners *)

Lemma lookup_after_command (body cmd : string) (args : list string) :
  Js.split_space body = cmd :: args →
  Js.split_space body !! 0%nat = Some cmd
  ∧ Js.split_space body !! 1%nat = args !! 0%nat
  ∧ Js.split_space body !! 2%nat = args !! 1%nat.
Proof. by intros ->. Qed.

(** X24.  The single-room [!view] has no room guard.  From a sender of
    power level 50 or more in the room the message arrived in, and for a
    first argument that is no alias (or is missing), it publishes the
    fallback view as state of the room the message arrived in, and sends
    the text to the one configured room, whichever room that is.  With
    no argument at all the url is [undefined] and the text ends in the
    word [undefined]. *)
Theorem single_room_view_fallback cfg pkg event room body args member :
  getType event = "m.room.message" →
  getContent_body event = Some body →
  Js.split_space body = "!view" :: args →
  getMember room (getSender event) = Some member →
  (50 ≤ powerLevel member)%Z →
  SingleRoom.alias_get (SingleRoom.alias cfg) (args !! 0%nat) = None →
  SingleRoom.onRoomTimeline cfg pkg event room
  = ([SingleRoom.SendStateEvent (roomId room) "net.woke.anchor.view"
        (SingleRoom.Fallback (args !! 0%nat)
           (Js.strict_eq (args !! 1%nat) "fill")) "";
      SingleRoom.SendTextMessage (SingleRoom.roomId cfg)
        ("Switching to view: " +:+ default "undefined" (args !! 0%nat)) ""],
     None).
Proof.
  intros Htype Hbody Hsplit Hmember Hlevel Halias.
  destruct (lookup_after_command _ _ _ Hsplit) as (H0 & H1 & H2).
  apply Z.ltb_ge in Hlevel.
  unfold SingleRoom.onRoomTimeline.
  rewrite Htype, Hbody, String.eqb_refl.
  rewrite (split_space_body_nonempty _ _ _ Hsplit) by discriminate.
  cbv zeta. rewrite H0, H1, H2, Hmember, Hlevel, Halias. reflexivity.
Qed.

Lemma single_room_view_fallback_witness :
  SingleRoom.onRoomTimeline sample_cfg_single sample_pkg
    (message "!view" "!lobby:woke.net" "@curator:woke.net")
    (room_with_level "!lobby:woke.net" 50)
  = ([SingleRoom.SendStateEvent "!lobby:woke.net" "net.woke.anchor.view"
        (SingleRoom.Fallback None false) "";
      SingleRoom.SendTextMessage "!anchor:woke.net"
        "Switching to view: undefined" ""],
     None).
Proof.
  apply (single_room_view_fallback sample_cfg_single sample_pkg
           (message "!view" "!lobby:woke.net" "@curator:woke.net")
           (room_with_level "!lobby:woke.net" 50) "!view" []
           {| powerLevel := 50 |});
    [reflexivity | reflexivity | reflexivity | reflexivity | simpl; lia
    | reflexivity].
Defined.

(** X25.  In the single-room [!view] listener a message whose first
    piece is [!view], from a sender the room does not know, throws a
    [TypeError] before any effect, in whatever room it arrives. *)
Theorem single_room_unknown_sender_throws cfg pkg event room body args :
  getType event = "m.room.message" →
  getContent_body event = Some body →
  Js.split_space body = "!view" :: args →
  getMember room (getSender event) = None →
  SingleRoom.onRoomTimeline cfg pkg event room = ([], Some TypeError).
Proof.
  intros Htype Hbody Hsplit Hmember.
  unfold SingleRoom.onRoomTimeline.
  rewrite Htype, Hbody, String.eqb_refl.
  rewrite (split_space_body_nonempty _ _ _ Hsplit) by discriminate.
  rewrite Hsplit, Hmember. reflexivity.
Qed.

Lemma single_room_unknown_sender_throws_witness :
  SingleRoom.onRoomTimeline sample_cfg_single sample_pkg
    (message "!view demo" "!lobby:woke.net" "@stranger:woke.net")
    (room_without_members "!lobby:woke.net")
  = ([], Some TypeError).
Proof.
  apply (single_room_unknown_sender_throws sample_cfg_single sample_pkg
           (message "!view demo" "!lobby:woke.net" "@stranger:woke.net")
           (room_without_members "!lobby:woke.net") "!view demo" ["demo"]);
    reflexivity.
Defined.

(** X26.  [!watch] from a sender of power level 50 or more, with a first
    argument that is no alias (or is missing): the first argument is
    published as the kind and the second as the url of the stream, under
    the event type [net.woke.anchor] with state key [stream], in the
    room the message arrived in; the text goes to the configured room
    and ends in the url, or in the word [undefined] when there is no
    second argument. *)
Theorem watch_fallback cfg pkg event room body args user member :
  Watch.getType event = "m.room.message" →
  Watch.content_body event = Some body →
  Js.split_space body = "!watch" :: args →
  Watch.sender_userId event = Some user →
  getMember room user = Some member →
  (50 ≤ powerLevel member)%Z →
  SingleRoom.alias_get (Watch.alias cfg) (args !! 0%nat) = None →
  Watch.onRoomTimeline cfg pkg event room
  = ([Watch.SendStateEvent (roomId room) "net.woke.anchor"
        (Watch.Fallback (args !! 0%nat) (args !! 1%nat)) "stream";
      Watch.SendTextMessage (Watch.roomId cfg)
        ("Switching to stream: " +:+ default "undefined" (args !! 1%nat)) ""],
     None).
Proof.
  intros Htype Hbody Hsplit Huser Hmember Hlevel Halias.
  destruct (lookup_after_command _ _ _ Hsplit) as (H0 & H1 & H2).
  apply Z.ltb_ge in Hlevel.
  unfold Watch.onRoomTimeline.
  rewrite Htype, Hbody, String.eqb_refl.
  rewrite (split_space_body_nonempty _ _ _ Hsplit) by discriminate.
  cbv zeta. rewrite H0, H1, H2, Huser, Hmember, Hlevel, Halias. reflexivity.
Qed.

Lemma watch_fallback_witness :
  Watch.onRoomTimeline sample_cfg_watch sample_pkg
    (watch_message "!watch hls" "@curator:woke.net")
    (room_with_level "!lobby:woke.net" 50)
  = ([Watch.SendStateEvent "!lobby:woke.net" "net.woke.anchor"
        (Watch.Fallback (Some "hls") None) "stream";
      Watch.SendTextMessage "!anchor:woke.net"
        "Switching to stream: undefined" ""],
     None).
Proof.
  apply (watch_fallback sample_cfg_watch sample_pkg
           (watch_message "!watch hls" "@curator:woke.net")
           (room_with_level "!lobby:woke.net" 50) "!watch hls" ["hls"]
           "@curator:woke.net" {| powerLevel := 50 |});
    [reflexivity | reflexivity | reflexivity | reflexivity | reflexivity
    | simpl; lia | reflexivity].
Defined.

(** X27.  In [!watch] an alias wins over the arguments: when the first
    argument is an alias, the configured stream is published as it is
    and its url is announced, whatever follows. *)
Theorem watch_alias cfg pkg event room body name rest user member stream :
  Watch.getType event = "m.room.message" →
  Watch.content_body event = Some body →
  Js.split_space body = "!watch" :: name :: rest →
  Watch.sender_userId event = Some user →
  getMember room user = Some member →
  (50 ≤ powerLevel member)%Z →
  Watch.alias cfg !! name = Some stream →
  Watch.onRoomTimeline cfg pkg event room
  = ([Watch.SendStateEvent (roomId room) "net.woke.anchor"
        (Watch.Configured stream) "stream";
      Watch.SendTextMessage (Watch.roomId cfg)
        ("Switching to stream: " +:+ Watch.url stream) ""],
     None).
Proof.
  intros Htype Hbody Hsplit Huser Hmember Hlevel Halias.
  destruct (lookup_after_command _ _ _ Hsplit) as (H0 & H1 & H2).
  apply Z.ltb_ge in Hlevel.
  unfold Watch.onRoomTimeline.
  rewrite Htype, Hbody, String.eqb_refl.
  rewrite (split_space_body_nonempty _ _ _ Hsplit) by discriminate.
  cbv zeta. rewrite H0, H1, Huser, Hmember, Hlevel.
  cbn [lookup list_lookup SingleRoom.alias_get]. rewrite Halias.
  reflexivity.
Qed.

Lemma watch_alias_witness :
  Watch.onRoomTimeline sample_cfg_watch sample_pkg
    (watch_message "!watch demo https://x/other" "@curator:woke.net")
    (room_with_level "!lobby:woke.net" 50)
  = ([Watch.SendStateEvent "!lobby:woke.net" "net.woke.anchor"
        (Watch.Configured {| Watch.kind := "hls";
                             Watch.url := "https://x/demo.m3u8" |}) "stream";
      Watch.SendTextMessage "!anchor:woke.net"
        "Switching to stream: https://x/demo.m3u8" ""],
     None).
Proof.
  apply (watch_alias sample_cfg_watch sample_pkg
           (watch_message "!watch demo https://x/other" "@curator:woke.net")
           (room_with_level "!lobby:woke.net" 50)
           "!watch demo https://x/other" "demo" ["https://x/other"]
           "@curator:woke.net" {| powerLevel := 50 |}
           {| Watch.kind := "hls"; Watch.url := "https://x/demo.m3u8" |});
    [reflexivity | reflexivity | reflexivity | reflexivity | reflexivity
    | simpl; lia | reflexivity].
Defined.

(** X28.  The single-room listeners answer [!bot] in the one configured
    room, not in the room the question came from, and ask nothing of the
    sender. *)
Theorem single_room_bot_replies_in_configured_room
    cfg pkg event room body args :
  getType event = "m.room.message" →
  getContent_body event = Some body →
  Js.split_space body = "!bot" :: args →
  SingleRoom.onRoomTimeline cfg pkg event room
  = ([SingleRoom.SendTextMessage (SingleRoom.roomId cfg)
        ("🤖 " +:+ pkg_name pkg +:+ " v" +:+ pkg_version pkg
         +:+ " (" +:+ pkg_homepage pkg +:+ ")") ""],
     None).
Proof.
  intros Htype Hbody Hsplit.
  unfold SingleRoom.onRoomTimeline.
  rewrite Htype, Hbody, String.eqb_refl.
  rewrite (split_space_body_nonempty _ _ _ Hsplit) by discriminate.
  by rewrite Hsplit.
Qed.

Lemma single_room_bot_replies_in_configured_room_witness :
  SingleRoom.onRoomTimeline sample_cfg_single sample_pkg
    (message "!bot" "!lobby:woke.net" "@stranger:woke.net")
    (room_without_members "!lobby:woke.net")
  = ([SingleRoom.SendTextMessage "!anchor:woke.net"
        "🤖 anchorbot v1.0.0 (https://github.com/wokenet/anchorbot)" ""],
     None).
Proof.
  apply (single_room_bot_replies_in_configured_room sample_cfg_single
           sample_pkg
           (message "!bot" "!lobby:woke.net" "@stranger:woke.net")
           (room_without_members "!lobby:woke.net") "!bot" []);
    reflexivity.
Defined.

(** * [src/index.ts] and the member table *)

Lemma index_ignores_members_witness :
  Index.onRoomTimeline sample_cfg sample_pkg sample_fetch
    (message "!end" "!curators:woke.net" "@guest:woke.net")
    (room_with_level "!curators:woke.net" 0)
  = Index.onRoomTimeline sample_cfg sample_pkg sample_fetch
      (message "!end" "!curators:woke.net" "@guest:woke.net")
      (room_without_members "!curators:woke.net").
Proof.
  apply (index_ignores_members sample_cfg sample_pkg sample_fetch
           (message "!end" "!curators:woke.net" "@guest:woke.net")
           (room_with_level "!curators:woke.net" 0)
           (room_without_members "!curators:woke.net")).
  reflexivity.
Defined.

(** * The key of the streamer lookup, in one pass *)

Lemma small_letter_of_lower (c : ascii) :
  small_letter_of c
  = if Js.is_lower (Js.lower_ascii c) then Some (Js.lower_ascii c) else None.
Proof. by destruct c as [[] [] [] [] [] [] [] []]. Qed.

(** Lower-casing and deleting what is outside [a-z], done on one
    character that starts no special sequence. *)
Lemma strip_plain (c : ascii) (t : string) :
  Js.strip_non_a_z (String (Js.lower_ascii c) t)
  = match small_letter_of c with
    | Some l => String l (Js.strip_non_a_z t)
    | None => Js.strip_non_a_z t
    end.
Proof.
  rewrite small_letter_of_lower. cbn [Js.strip_non_a_z].
  by destruct (Js.is_lower (Js.lower_ascii c)).
Qed.

(** The two steps of [matchKey] give the one-pass key, on every text. *)
Lemma matchKey_is_a_z_key (s : string) : Index.matchKey s = a_z_key s.
Proof.
  unfold Index.matchKey.
  assert (Hall : ∀ n s, (String.length s ≤ n)%nat →
                        Js.strip_non_a_z (Js.toLowerCase s) = a_z_key s).
  { clear s. induction n as [|n IH]; intros s Hlen.
    - destruct s; [reflexivity | simpl in Hlen; lia].
    - destruct s as [|c s1]; [reflexivity|].
      simpl in Hlen.
      assert (H1 : Js.strip_non_a_z (Js.toLowerCase s1) = a_z_key s1)
        by (apply IH; lia).
      cbn [Js.toLowerCase a_z_key]. unfold Js.byte_is.
      destruct s1 as [|c2 s2].
      + rewrite strip_plain. reflexivity.
      + simpl in Hlen.
        assert (H2 : Js.strip_non_a_z (Js.toLowerCase s2) = a_z_key s2)
          by (apply IH; lia).
        destruct ((nat_of_ascii c =? 196)%nat && (nat_of_ascii c2 =? 176)%nat).
        { cbn [Js.strip_non_a_z]. simpl. by rewrite H2. }
        destruct s2 as [|c3 s3].
        * by rewrite strip_plain, H1.
        * simpl in Hlen.
          assert (H3 : Js.strip_non_a_z (Js.toLowerCase s3) = a_z_key s3)
            by (apply IH; lia).
          destruct ((nat_of_ascii c =? 226)%nat && (nat_of_ascii c2 =? 132)%nat
                    && (nat_of_ascii c3 =? 170)%nat).
          { cbn [Js.strip_non_a_z]. simpl. by rewrite H3. }
          by rewrite strip_plain, H1. }
  by apply (Hall (String.length s)).
Qed.

(** On ASCII text the Latin-1 reading of the specification is its ASCII
    reading. *)
Lemma spec_normalize_latin1_ascii (s : string) :
  ascii_only s = true → spec_normalize_latin1 s = spec_normalize s.
Proof.
  induction s as [|c s IH]; [reflexivity|].
  cbn [ascii_only]. intros [Hc Hs]%andb_true_iff.
  cbn [spec_normalize_latin1 spec_normalize].
  rewrite small_letter_of_lower, is_lower_lower_ascii.
  destruct (Js.is_upper c || Js.is_lower c); [by rewrite IH|].
  assert (H195 : (nat_of_ascii c =? 195)%nat = false).
  { apply Nat.eqb_neq. apply Nat.ltb_lt in Hc. lia. }
  rewrite H195, <- IH by done. by destruct s.
Qed.

(** C9, as the code has it.  [!streamer name ...] with a non-empty name,
    when the directory was fetched: the name and each slug are compared
    by their keys, the key of a text being its ASCII letters made small
    (with U+0130 read as [i] and U+212A as [k]) and everything else
    deleted, non-ASCII letters included.  The first entry of the
    directory whose key equals the key of the name is the one referenced
    by the single message sent to the anchor room; when no entry has
    that key, nothing is sent.  In both cases the only other effect is
    the fetch itself. *)
Theorem streamer_lookup_by_key
    cfg pkg fetch_json event room body name rest streamers :
  getType event = "m.room.message" →
  getContent_body event = Some body →
  Js.split_space body = "!streamer" :: name :: rest →
  name ≠ "" →
  fetch_json (Index.apiUrl cfg +:+ "/streamers/index.json") = Some streamers →
  (∀ before streamer after,
      streamers = before ++ streamer :: after →
      a_z_key (slug streamer) = a_z_key name →
      Forall (λ s, a_z_key (slug s) ≠ a_z_key name) before →
      run (Index.onRoomTimeline cfg pkg fetch_json event room)
      = ([Fetch (Index.apiUrl cfg +:+ "/streamers/index.json");
          SendMessage (anchor (Index.rooms cfg))
            {| msgtype := "m.notice";
               body := Client.name streamer +:+ ": " +:+ Index.anchorUrl cfg
                       +:+ "/streamers/" +:+ slug streamer;
               format := "net.woke.streamer";
               net_woke_streamer := streamer |} ""],
         None))
  ∧ (Forall (λ s, a_z_key (slug s) ≠ a_z_key name) streamers →
      run (Index.onRoomTimeline cfg pkg fetch_json event room)
      = ([Fetch (Index.apiUrl cfg +:+ "/streamers/index.json")], None)).
Proof.
  intros Htype Hbody Hsplit Hname Hfetch.
  rewrite (index_dispatch cfg pkg fetch_json event room body "!streamer"
             (name :: rest)) by done.
  assert (Htruthy : Js.truthy ((name :: rest) !! 0%nat) = true).
  { simpl. by apply negb_true_iff, String.eqb_neq. }
  rewrite Htruthy. simpl.
  split.
  - intros before streamer after -> Hmatch Hbefore.
    apply (streamerCommand_found cfg fetch_json _ name rest
             (before ++ streamer :: after) (Some streamer)); [done | done |].
    apply find_first.
    + apply String.eqb_eq. by rewrite !matchKey_is_a_z_key.
    + eapply Forall_impl; [exact Hbefore|].
      intros s Hs. apply String.eqb_neq. by rewrite !matchKey_is_a_z_key.
  - intros Hnone.
    apply (streamerCommand_found cfg fetch_json _ name rest streamers None);
      [done | done |].
    apply find_nothing. eapply Forall_impl; [exact Hnone|].
    intros s Hs. apply String.eqb_neq. by rewrite !matchKey_is_a_z_key.
Qed.

Lemma streamer_lookup_by_key_witness :
  run (Index.onRoomTimeline sample_cfg sample_pkg sample_fetch
         (message "!streamer A.B.C" "!lobby:woke.net" "@guest:woke.net")
         (room_with_level "!lobby:woke.net" 0))
  = ([Fetch "https://api.woke.net/streamers/index.json";
      SendMessage "!anchor:woke.net"
        {| msgtype := "m.notice";
           body := "ABC: https://woke.net/streamers/a-b-c";
           format := "net.woke.streamer";
           net_woke_streamer := {| slug := "a-b-c"; name := "ABC" |} |} ""],
     None)
  ∧ run (Index.onRoomTimeline sample_cfg sample_pkg sample_fetch
           (message "!streamer ABD" "!lobby:woke.net" "@guest:woke.net")
           (room_with_level "!lobby:woke.net" 0))
    = ([Fetch "https://api.woke.net/streamers/index.json"], None).
Proof.
  split.
  - destruct (streamer_lookup_by_key sample_cfg sample_pkg sample_fetch
                (message "!streamer A.B.C" "!lobby:woke.net" "@guest:woke.net")
                (room_with_level "!lobby:woke.net" 0)
                "!streamer A.B.C" "A.B.C" [] sample_directory)
      as [Hfound _];
      [reflexivity | reflexivity | reflexivity | discriminate | reflexivity |].
    apply (Hfound [ {| slug := "x-y"; name := "XY" |} ]
                  {| slug := "a-b-c"; name := "ABC" |} []);
      [reflexivity | reflexivity | repeat constructor; discriminate].
  - destruct (streamer_lookup_by_key sample_cfg sample_pkg sample_fetch
                (message "!streamer ABD" "!lobby:woke.net" "@guest:woke.net")
                (room_with_level "!lobby:woke.net" 0)
                "!streamer ABD" "ABD" [] sample_directory)
      as [_ Hnone];
      [reflexivity | reflexivity | reflexivity | discriminate | reflexivity |].
    apply Hnone. repeat constructor; discriminate.
Defined.

(** C9, as the specification words it, fails on [src/index.ts]: [é] is a
    letter, so lower-casing and dropping what is not a letter leaves the
    slug [café] different from the name [caf] and no entry matches; the
    code deletes the [é] with everything else outside [a-z], finds the
    entry and sends the message. *)
Lemma streamer_non_ascii_letter_counterexample :
  spec_normalize_latin1 "café" = "café"
  ∧ spec_normalize_latin1 "caf" = "caf"
  ∧ Forall (λ s, spec_normalize_latin1 (slug s) ≠ spec_normalize_latin1 "caf")
           accented_directory
  ∧ Index.matchKey "café" = "caf"
  ∧ run (Index.onRoomTimeline sample_cfg sample_pkg accented_fetch
           (message "!streamer caf" "!lobby:woke.net" "@guest:woke.net")
           (room_with_level "!lobby:woke.net" 0))
    = ([Fetch "https://api.woke.net/streamers/index.json";
        SendMessage "!anchor:woke.net"
          {| msgtype := "m.notice";
             body := "Café: https://woke.net/streamers/café";
             format := "net.woke.streamer";
             net_woke_streamer := {| slug := "café"; name := "Café" |} |} ""],
       None).
Proof.
  repeat split. repeat constructor. discriminate.
Qed.
